(** * Practica4: the CRUD repositories of app.py, energy.py and vape.py

    The three files are hand copies of one pattern: a SQLAlchemy table, the
    pydantic input models, and a repository with [get_all], [get_by_id],
    [create], [update] and [delete].  This development embeds the sneaker
    repository of app.py in full and the list query of vape.py, and proves
    the properties of the specification about them.

    Modelling choices, all documented where they are made:
    - a Python [str] is a [string], one [ascii] per character;
    - a Python [int] is a [Z]; the 64-bit range of the storage engine's
      INTEGER class is outside the model: an integer beyond it makes the
      driver raise, and the properties that say a call returns either
      leave such integers aside or ask for integers within the range;
    - a Python [float] is an abstract type; the engine stores a NaN as
      NULL, which the writes of the vape repository model;
    - [Optional[T]] is [option T]; a raised exception is a [Raise] result;
    - a table is the list of its rows in rowid order, which is the order in
      which the storage engine scans it;
    - SQL conditions are three-valued: [option bool], [None] being NULL. *)

From Stdlib Require Import ZArith List String Ascii Bool Lia Sorted Permutation.
Import ListNotations.
Open Scope string_scope.
Open Scope Z_scope.

(* ================================================================== *)
(** ** Python values *)

Module Py.

(** The only exception the repositories can raise by themselves. *)
Inductive exn : Type := AttributeError.

Inductive result (A : Type) : Type :=
| Ok (a : A)
| Raise (e : exn).
Arguments Ok {A} a.
Arguments Raise {A} e.

Definition bind {A B : Type} (r : result A) (f : A -> result B) : result B :=
  match r with
  | Ok a => f a
  | Raise e => Raise e
  end.

(** Truth value of a [str] in an [if]: only the empty string is false.
    ([None] is false too: the callers match on the option first.) *)
Definition str_bool (s : string) : bool :=
  match s with
  | EmptyString => false
  | String _ _ => true
  end.

(** Truth value of an [int] in an [if]: only [0] is false. *)
Definition int_bool (z : Z) : bool := negb (z =? 0).

(** What [getattr] on a mapped class can return: [None], a [str], a mapped
    column (which has [asc] and [desc]), or some other object (which has
    neither). *)
Inductive obj (C : Type) : Type :=
| PyNone
| PyStr (s : string)
| PyColumn (c : C)
| PyObject.
Arguments PyNone {C}.
Arguments PyStr {C} s.
Arguments PyColumn {C} c.
Arguments PyObject {C}.

(** [str.lower] on one character: the upper-case letters of ASCII and of
    the Latin-1 supplement move 32 places up. *)
Definition lower_char (c : ascii) : ascii :=
  let n := N_of_ascii c in
  if (((65 <=? n) && (n <=? 90)) ||
      ((192 <=? n) && (n <=? 222) && negb (n =? 215)))%N
  then ascii_of_N (n + 32) else c.

Fixpoint lower (s : string) : string :=
  match s with
  | EmptyString => EmptyString
  | String c s' => String (lower_char c) (lower s')
  end.

End Py.

(* ================================================================== *)
(** ** The storage engine: conditions, LIKE, ordering, windows *)

(** The engine is the one [DATABASE_URL] names, SQLite: [=] on text is
    exact, LIKE ignores the case of ASCII letters, NULL is the least value
    of an ORDER BY, a negative LIMIT is no limit. *)

Module Sql.

(** Three-valued OR. *)
Definition or3 (a b : option bool) : option bool :=
  match a, b with
  | Some true, _ | _, Some true => Some true
  | Some false, Some false => Some false
  | _, _ => None
  end.

(** [column = value] on a text column (BINARY collation). *)
Definition eq_text (a : option string) (v : string) : option bool :=
  option_map (fun x => String.eqb x v) a.

Definition eq_int (a : option Z) (v : Z) : option bool :=
  option_map (fun x => x =? v) a.

Definition ge_int (a : option Z) (v : Z) : option bool :=
  option_map (fun x => v <=? x) a.

Definition le_int (a : option Z) (v : Z) : option bool :=
  option_map (fun x => x <=? v) a.

(** LIKE folds the case of the 26 ASCII letters only. *)
Definition fold_char (c : ascii) : ascii :=
  let n := N_of_ascii c in
  if ((65 <=? n) && (n <=? 90))%N then ascii_of_N (n + 32) else c.

Fixpoint fold (s : string) : string :=
  match s with
  | EmptyString => EmptyString
  | String c s' => String (fold_char c) (fold s')
  end.

Definition char_eq_nocase (c d : ascii) : bool :=
  Ascii.eqb (fold_char c) (fold_char d).

Definition is_percent (c : ascii) : bool := Ascii.eqb c "%"%char.
Definition is_underscore (c : ascii) : bool := Ascii.eqb c "_"%char.

(** [like_match p t]: the text [t] matches the LIKE pattern [p].  [%]
    stands for any run of characters, [_] for any one character, every
    other character for itself up to ASCII case.  There is no escape
    character, as none is passed. *)
Fixpoint like_match (p : string) : string -> bool :=
  match p with
  | EmptyString =>
      fun t => match t with EmptyString => true | String _ _ => false end
  | String c p' =>
      if is_percent c then
        fix star (t : string) : bool :=
          like_match p' t ||
          match t with
          | EmptyString => false
          | String _ t' => star t'
          end
      else
        fun t =>
          match t with
          | EmptyString => false
          | String d t' =>
              (is_underscore c || char_eq_nocase c d) && like_match p' t'
          end
  end.

(** [column LIKE pattern]; NULL on a NULL column. *)
Definition like (a : option string) (p : string) : option bool :=
  option_map (like_match p) a.

(** NULL sorts before every value. *)
Definition nulls_first {A : Type} (leb : A -> A -> bool)
           (a b : option A) : bool :=
  match a, b with
  | None, _ => true
  | Some _, None => false
  | Some x, Some y => leb x y
  end.

Section Query.
Variable R : Type.

(** A SELECT over one table, as the query object accumulates it. *)
Record Query : Type := mkQuery {
  q_where : list (R -> option bool);
  q_order : option (R -> R -> bool);
  q_offset : option Z;
  q_limit : option Z
}.

Definition query : Query := mkQuery [] None None None.

Definition filter (q : Query) (c : R -> option bool) : Query :=
  mkQuery (q_where q ++ [c])%list (q_order q) (q_offset q) (q_limit q).

Definition order_by (q : Query) (leb : R -> R -> bool) : Query :=
  mkQuery (q_where q) (Some leb) (q_offset q) (q_limit q).

Definition offset (q : Query) (n : Z) : Query :=
  mkQuery (q_where q) (q_order q) (Some n) (q_limit q).

Definition limit (q : Query) (n : Z) : Query :=
  mkQuery (q_where q) (q_order q) (q_offset q) (Some n).

(** A row is selected when every condition is true (not false, not NULL). *)
Definition holds (cs : list (R -> option bool)) (r : R) : bool :=
  forallb (fun c => match c r with Some true => true | _ => false end) cs.

Fixpoint insert_sorted (leb : R -> R -> bool) (x : R) (l : list R) : list R :=
  match l with
  | [] => [x]
  | y :: l' => if leb x y then x :: l else y :: insert_sorted leb x l'
  end.

(** ORDER BY, as a stable sort of the scanned rows.  Among rows that are
    equal on the sort key the engine is free (an index scan may give them
    in another order); nothing below depends on their order. *)
Fixpoint sort (leb : R -> R -> bool) (l : list R) : list R :=
  match l with
  | [] => []
  | x :: l' => insert_sorted leb x (sort leb l')
  end.

Definition apply_order (o : option (R -> R -> bool)) (l : list R) : list R :=
  match o with
  | None => l
  | Some leb => sort leb l
  end.

(** OFFSET: a negative offset skips nothing. *)
Definition apply_offset (o : option Z) (l : list R) : list R :=
  match o with
  | None => l
  | Some n => skipn (Z.to_nat n) l
  end.

(** LIMIT: a negative limit is no limit. *)
Definition apply_limit (o : option Z) (l : list R) : list R :=
  match o with
  | None => l
  | Some n => if n <? 0 then l else firstn (Z.to_nat n) l
  end.

(** [Query.all]: run the query on the table. *)
Definition all (table : list R) (q : Query) : list R :=
  apply_limit (q_limit q)
    (apply_offset (q_offset q)
       (apply_order (q_order q)
          (List.filter (holds (q_where q)) table))).

(** [Query.first]: the first row of the result, or [None]. *)
Definition first (table : list R) (q : Query) : option R :=
  hd_error (all table (limit q 1)).

End Query.

Arguments mkQuery {R}.
Arguments q_where {R}.
Arguments q_order {R}.
Arguments q_offset {R}.
Arguments q_limit {R}.
Arguments query {R}.
Arguments filter {R}.
Arguments order_by {R}.
Arguments offset {R}.
Arguments limit {R}.
Arguments holds {R}.
Arguments insert_sorted {R}.
Arguments sort {R}.
Arguments apply_order {R}.
Arguments apply_offset {R}.
Arguments apply_limit {R}.
Arguments all {R}.
Arguments first {R}.

End Sql.

(* ================================================================== *)
(** ** app.py: the sneaker repository *)

Module SneakerApp.

(** A row of the table [sneakers].  [id] is the primary key; the other
    columns are nullable. *)
Record Sneaker : Type := mkSneaker {
  id : Z;
  brand : option string;
  model : option string;
  price : option Z
}.

Record SneakerCreate : Type := mkSneakerCreate {
  create_brand : string;
  create_model : string;
  create_price : Z
}.

(** Every field of [SneakerUpdate] is optional and remembers whether it was
    supplied: [None] is a field left unset, [Some None] a field supplied as
    [null], [Some (Some v)] a field supplied with a value.  There is no
    [id] field. *)
Record SneakerUpdate : Type := mkSneakerUpdate {
  update_brand : option (option string);
  update_model : option (option string);
  update_price : option (option Z)
}.

(** The mapped columns of the class [Sneaker]. *)
Inductive column : Type := Col_id | Col_brand | Col_model | Col_price.

(** Ascending order on a column; NULL first, text by code point. *)
Definition col_leb (c : column) (r1 r2 : Sneaker) : bool :=
  match c with
  | Col_id => id r1 <=? id r2
  | Col_brand => Sql.nulls_first String.leb (brand r1) (brand r2)
  | Col_model => Sql.nulls_first String.leb (model r1) (model r2)
  | Col_price => Sql.nulls_first Z.leb (price r1) (price r2)
  end.

Definition col_asc (c : column) : Sneaker -> Sneaker -> bool :=
  fun r1 r2 => col_leb c r1 r2.

Definition col_desc (c : column) : Sneaker -> Sneaker -> bool :=
  fun r1 r2 => col_leb c r2 r1.

(** [column.asc()] and [column.desc()] on whatever [getattr] returned:
    only a mapped column has these methods. *)
Definition asc (o : Py.obj column) : Py.result (Sneaker -> Sneaker -> bool) :=
  match o with
  | Py.PyColumn c => Py.Ok (col_asc c)
  | _ => Py.Raise Py.AttributeError
  end.

Definition desc (o : Py.obj column) : Py.result (Sneaker -> Sneaker -> bool) :=
  match o with
  | Py.PyColumn c => Py.Ok (col_desc c)
  | _ => Py.Raise Py.AttributeError
  end.

(** [column.contains(s)] is [column LIKE '%' || s || '%']. *)
Definition contains (col : Sneaker -> option string) (s : string)
  : Sneaker -> option bool :=
  fun r => Sql.like (col r) ("%" ++ s ++ "%").

(** Line 63: the OR of [Sneaker.brand.contains(search)] and
    [Sneaker.model.contains(search)]. *)
Definition search_clause (search : string) : Sneaker -> option bool :=
  fun r => Sql.or3 (contains brand search r) (contains model search r).

Section Repository.

(** The attributes that [Sneaker] inherits from the declarative [Base]
    and from [object], under every name its class body does not
    define; [PyNone] for a name that is no attribute at all. *)
Variable Base_getattr : string -> Py.obj column.

(** [getattr(Sneaker, name, None)]: the class body first. *)
Definition getattr (name : string) : Py.obj column :=
  if String.eqb name "__tablename__" then Py.PyStr "sneakers"
  else if String.eqb name "id" then Py.PyColumn Col_id
  else if String.eqb name "brand" then Py.PyColumn Col_brand
  else if String.eqb name "model" then Py.PyColumn Col_model
  else if String.eqb name "price" then Py.PyColumn Col_price
  else Base_getattr name.

(** Lines 66-72: the sorting step of [get_all]. *)
Definition apply_sort (query : Sql.Query Sneaker)
           (sort_by sort_order : option string)
  : Py.result (Sql.Query Sneaker) :=
  match sort_by with
  | None => Py.Ok query
  | Some name =>
      if Py.str_bool name then
        match getattr name with
        | Py.PyNone => Py.Ok query
        | column =>
            match sort_order with
            | None => Py.Raise Py.AttributeError
            | Some order =>
                if String.eqb (Py.lower order) "desc"
                then Py.bind (desc column)
                       (fun o => Py.Ok (Sql.order_by query o))
                else Py.bind (asc column)
                       (fun o => Py.Ok (Sql.order_by query o))
            end
        end
      else Py.Ok query
  end.

(** Lines 56-63: the filters of [get_all]. *)
Definition apply_filters (query : Sql.Query Sneaker)
           (filter_brand : option string)
           (filter_price_min filter_price_max : option Z)
           (search : option string) : Sql.Query Sneaker :=
  let query :=
    match filter_brand with
    | Some b =>
        if Py.str_bool b
        then Sql.filter query (fun r => Sql.eq_text (brand r) b)
        else query
    | None => query
    end in
  let query :=
    match filter_price_min with
    | Some p =>
        if Py.int_bool p
        then Sql.filter query (fun r => Sql.ge_int (price r) p)
        else query
    | None => query
    end in
  let query :=
    match filter_price_max with
    | Some p =>
        if Py.int_bool p
        then Sql.filter query (fun r => Sql.le_int (price r) p)
        else query
    | None => query
    end in
  match search with
  | Some s =>
      if Py.str_bool s
      then Sql.filter query (search_clause s)
      else query
  | None => query
  end.

Definition get_all (db : list Sneaker) (skip limit : Z)
           (sort_by sort_order : option string)
           (filter_brand : option string)
           (filter_price_min filter_price_max : option Z)
           (search : option string) : Py.result (list Sneaker) :=
  let query := Sql.query in
  let query :=
    apply_filters query filter_brand filter_price_min filter_price_max
                  search in
  Py.bind (apply_sort query sort_by sort_order) (fun query =>
  Py.Ok (Sql.all db (Sql.limit (Sql.offset query skip) limit))).

End Repository.

Definition get_by_id (db : list Sneaker) (sneaker_id : Z) : option Sneaker :=
  Sql.first db
    (Sql.filter Sql.query (fun r => Sql.eq_int (Some (id r)) sneaker_id)).

(** The rowid given to an inserted row: one more than the largest rowid,
    [1] in an empty table. *)
Definition max_rowid (db : list Sneaker) : option Z :=
  fold_right
    (fun r acc =>
       match acc with
       | None => Some (id r)
       | Some m => Some (Z.max (id r) m)
       end) None db.

Definition next_rowid (db : list Sneaker) : Z :=
  match max_rowid db with
  | None => 1
  | Some m => m + 1
  end.

(** [db.refresh(obj)]: read the row of [obj] again. *)
Definition refresh (db : list Sneaker) (obj : Sneaker) : Sneaker :=
  match get_by_id db (id obj) with
  | Some r => r
  | None => obj
  end.

(** [db.add(obj); db.commit()]: INSERT, the engine assigns the rowid. *)
Definition add_commit (db : list Sneaker)
           (b m : option string) (p : option Z) : list Sneaker * Sneaker :=
  let obj := mkSneaker (next_rowid db) b m p in
  ((db ++ [obj])%list, obj).

(** [db.commit()] after attribute changes: UPDATE the row of that key. *)
Definition update_commit (db : list Sneaker) (obj : Sneaker) : list Sneaker :=
  map (fun r => if id r =? id obj then obj else r) db.

(** [db.delete(obj); db.commit()]: DELETE the row of that key. *)
Definition delete_commit (db : list Sneaker) (obj : Sneaker) : list Sneaker :=
  List.filter (fun r => negb (id r =? id obj)) db.

Definition create (db : list Sneaker) (sneaker_data : SneakerCreate)
  : list Sneaker * Sneaker :=
  let '(db, db_sneaker) :=
    add_commit db (Some (create_brand sneaker_data))
               (Some (create_model sneaker_data))
               (Some (create_price sneaker_data)) in
  (db, refresh db db_sneaker).

(** One entry of [sneaker_data.dict(exclude_unset=True)]. *)
Inductive item : Type :=
| Item_brand (v : option string)
| Item_model (v : option string)
| Item_price (v : option Z).

Definition dict_exclude_unset (d : SneakerUpdate) : list item :=
  (match update_brand d with Some v => [Item_brand v] | None => [] end ++
   match update_model d with Some v => [Item_model v] | None => [] end ++
   match update_price d with Some v => [Item_price v] | None => [] end)%list.

Definition setattr (obj : Sneaker) (kv : item) : Sneaker :=
  match kv with
  | Item_brand v => mkSneaker (id obj) v (model obj) (price obj)
  | Item_model v => mkSneaker (id obj) (brand obj) v (price obj)
  | Item_price v => mkSneaker (id obj) (brand obj) (model obj) v
  end.

Definition update (db : list Sneaker) (sneaker_id : Z)
           (sneaker_data : SneakerUpdate) : list Sneaker * option Sneaker :=
  match get_by_id db sneaker_id with
  | None => (db, None)
  | Some db_sneaker =>
      let db_sneaker :=
        fold_left setattr (dict_exclude_unset sneaker_data) db_sneaker in
      let db := update_commit db db_sneaker in
      (db, Some (refresh db db_sneaker))
  end.

Definition delete (db : list Sneaker) (sneaker_id : Z)
  : list Sneaker * bool :=
  match get_by_id db sneaker_id with
  | None => (db, false)
  | Some db_sneaker => (delete_commit db db_sneaker, true)
  end.

End SneakerApp.

(* ================================================================== *)
(** ** vape.py: the list query of the vape repository *)

Module VapeApp.

Section Floats.

(** Python's [float] and the three things [get_all] does with one: its
    truth value in an [if], and the comparison of the storage engine,
    used by [>=], [<=] and ORDER BY.  They are left abstract: nothing
    proved below depends on how they are computed. *)
Variable float : Type.
Variable float_bool : float -> bool.
Variable float_leb : float -> float -> bool.

(** A row of the table [vapes]. *)
Record Vape : Type := mkVape {
  id : Z;
  brand : option string;
  model : option string;
  price : option float;
  power_level : option float
}.

Inductive column : Type :=
| Col_id | Col_brand | Col_model | Col_price | Col_power_level.

Definition col_leb (c : column) (r1 r2 : Vape) : bool :=
  match c with
  | Col_id => id r1 <=? id r2
  | Col_brand => Sql.nulls_first String.leb (brand r1) (brand r2)
  | Col_model => Sql.nulls_first String.leb (model r1) (model r2)
  | Col_price => Sql.nulls_first float_leb (price r1) (price r2)
  | Col_power_level =>
      Sql.nulls_first float_leb (power_level r1) (power_level r2)
  end.

Definition asc (o : Py.obj column) : Py.result (Vape -> Vape -> bool) :=
  match o with
  | Py.PyColumn c => Py.Ok (fun r1 r2 => col_leb c r1 r2)
  | _ => Py.Raise Py.AttributeError
  end.

Definition desc (o : Py.obj column) : Py.result (Vape -> Vape -> bool) :=
  match o with
  | Py.PyColumn c => Py.Ok (fun r1 r2 => col_leb c r2 r1)
  | _ => Py.Raise Py.AttributeError
  end.

Definition ge_real (a : option float) (v : float) : option bool :=
  option_map (fun x => float_leb v x) a.

Definition le_real (a : option float) (v : float) : option bool :=
  option_map (fun x => float_leb x v) a.

Definition contains (col : Vape -> option string) (s : string)
  : Vape -> option bool :=
  fun r => Sql.like (col r) ("%" ++ s ++ "%").

(** As in app.py: what [Vape] inherits from [Base] and [object]. *)
Variable Base_getattr : string -> Py.obj column.

Definition getattr (name : string) : Py.obj column :=
  if String.eqb name "__tablename__" then Py.PyStr "vapes"
  else if String.eqb name "id" then Py.PyColumn Col_id
  else if String.eqb name "brand" then Py.PyColumn Col_brand
  else if String.eqb name "model" then Py.PyColumn Col_model
  else if String.eqb name "price" then Py.PyColumn Col_price
  else if String.eqb name "power_level" then Py.PyColumn Col_power_level
  else Base_getattr name.

(** Lines 70-76 of vape.py. *)
Definition apply_sort (query : Sql.Query Vape)
           (sort_by sort_order : option string)
  : Py.result (Sql.Query Vape) :=
  match sort_by with
  | None => Py.Ok query
  | Some name =>
      if Py.str_bool name then
        match getattr name with
        | Py.PyNone => Py.Ok query
        | column =>
            match sort_order with
            | None => Py.Raise Py.AttributeError
            | Some order =>
                if String.eqb (Py.lower order) "desc"
                then Py.bind (desc column)
                       (fun o => Py.Ok (Sql.order_by query o))
                else Py.bind (asc column)
                       (fun o => Py.Ok (Sql.order_by query o))
            end
        end
      else Py.Ok query
  end.

(** Lines 60-67 of vape.py. *)
Definition apply_filters (query : Sql.Query Vape)
           (filter_brand : option string)
           (filter_price_min filter_price_max : option float)
           (search : option string) : Sql.Query Vape :=
  let query :=
    match filter_brand with
    | Some b =>
        if Py.str_bool b
        then Sql.filter query (fun r => Sql.eq_text (brand r) b)
        else query
    | None => query
    end in
  let query :=
    match filter_price_min with
    | Some p =>
        if float_bool p
        then Sql.filter query (fun r => ge_real (price r) p)
        else query
    | None => query
    end in
  let query :=
    match filter_price_max with
    | Some p =>
        if float_bool p
        then Sql.filter query (fun r => le_real (price r) p)
        else query
    | None => query
    end in
  match search with
  | Some s =>
      if Py.str_bool s
      then Sql.filter query
             (fun r => Sql.or3 (contains brand s r) (contains model s r))
      else query
  | None => query
  end.

Definition get_all (db : list Vape) (skip limit : Z)
           (sort_by sort_order : option string)
           (filter_brand : option string)
           (filter_price_min filter_price_max : option float)
           (search : option string) : Py.result (list Vape) :=
  let query := Sql.query in
  let query :=
    apply_filters query filter_brand filter_price_min filter_price_max
                  search in
  Py.bind (apply_sort query sort_by sort_order) (fun query =>
  Py.Ok (Sql.all db (Sql.limit (Sql.offset query skip) limit))).

End Floats.

End VapeApp.

(* ================================================================== *)
(** ** Vocabulary of the properties *)

Module SneakerSpec.
Import SneakerApp.

(** The rows of [db] that pass the filters of a list call. *)
Definition matching (db : list Sneaker) (filter_brand : option string)
           (filter_price_min filter_price_max : option Z)
           (search : option string) : list Sneaker :=
  List.filter
    (Sql.holds
       (Sql.q_where
          (apply_filters Sql.query filter_brand filter_price_min
                         filter_price_max search)))
    db.

(** The sorting step of a list call goes through: it raises nothing. *)
Definition sort_accepted (Base_getattr : string -> Py.obj column)
           (sort_by sort_order : option string) : bool :=
  match apply_sort Base_getattr Sql.query sort_by sort_order with
  | Py.Ok _ => true
  | Py.Raise _ => false
  end.

(** The page of a result that OFFSET [skip] and LIMIT [limit] cut out. *)
Definition window (skip limit : Z) (l : list Sneaker) : list Sneaker :=
  Sql.apply_limit (Some limit) (Sql.apply_offset (Some skip) l).

(** The order of texts: character by character, by code point, a text
    before its extensions. *)
Fixpoint text_le (s t : string) : Prop :=
  match s, t with
  | EmptyString, _ => True
  | String _ _, EmptyString => False
  | String a s', String b t' =>
      (N_of_ascii a < N_of_ascii b)%N \/ (a = b /\ text_le s' t')
  end.

(** The order of nullable values: NULL before every value. *)
Definition null_le {A : Type} (le : A -> A -> Prop) (a b : option A) : Prop :=
  match a, b with
  | None, _ => True
  | Some _, None => False
  | Some x, Some y => le x y
  end.

(** The order of two rows on a field, said on the values of the field:
    integers by size, texts by [text_le]. *)
Definition field_le (c : column) (r1 r2 : Sneaker) : Prop :=
  match c with
  | Col_id => id r1 <= id r2
  | Col_brand => null_le text_le (brand r1) (brand r2)
  | Col_model => null_le text_le (model r1) (model r2)
  | Col_price => null_le Z.le (price r1) (price r2)
  end.

(** A list of rows goes up, or down, along a field: each row is at most,
    or at least, the next one. *)
Definition ascending (c : column) (l : list Sneaker) : Prop :=
  Sorted (fun r1 r2 => field_le c r1 r2) l.

Definition descending (c : column) (l : list Sneaker) : Prop :=
  Sorted (fun r1 r2 => field_le c r2 r1) l.

(** The names of the declared fields of the schema. *)
Definition declared_field (name : string) : option column :=
  if String.eqb name "id" then Some Col_id
  else if String.eqb name "brand" then Some Col_brand
  else if String.eqb name "model" then Some Col_model
  else if String.eqb name "price" then Some Col_price
  else None.

Definition letter (lo up c : ascii) : bool :=
  Ascii.eqb c lo || Ascii.eqb c up.

(** [order] is the word desc, each letter in either case. *)
Definition is_desc (order : string) : bool :=
  match order with
  | String a (String b (String c (String d EmptyString))) =>
      letter "d" "D" a && letter "e" "E" b &&
      letter "s" "S" c && letter "c" "C" d
  | _ => false
  end.






(** The row passes the search condition of a list call. *)
Definition matched (search : string) (r : Sneaker) : bool :=
  Sql.holds [search_clause search] r.

(** The row [r] with the supplied fields of [d] in place of its own, and
    every other field, the key included, as it was. *)
Definition merged (r : Sneaker) (d : SneakerUpdate) : Sneaker :=
  mkSneaker (id r)
    (match update_brand d with Some v => v | None => brand r end)
    (match update_model d with Some v => v | None => model r end)
    (match update_price d with Some v => v | None => price r end).

(** The histories of a store: the calls that change it, from the empty
    table on. *)
Inductive operation : Type :=
| Create (sneaker_data : SneakerCreate)
| Update (sneaker_id : Z) (sneaker_data : SneakerUpdate)
| Delete (sneaker_id : Z).

Definition step (db : list Sneaker) (op : operation) : list Sneaker :=
  match op with
  | Create d => fst (create db d)
  | Update i d => fst (update db i d)
  | Delete i => fst (delete db i)
  end.

Definition run (ops : list operation) : list Sneaker :=
  fold_left step ops [].

(** Rows used in the examples. *)
Definition nike : Sneaker := mkSneaker 1 (Some "Nike") (Some "Air") (Some 100).
Definition nixon : Sneaker :=
  mkSneaker 2 (Some "Puma") (Some "Nixon Runner") (Some 80).
Definition no_attrs : string -> Py.obj column := fun _ => Py.PyNone.

End SneakerSpec.

(* ================================================================== *)
(** ** app.py: the controller and the listing route *)

Module SneakerApi.
Import SneakerApp.

(** [SneakerResponse]: every field is required and typed, none is
    [Optional]. *)
Record SneakerResponse : Type := mkSneakerResponse {
  resp_id : Z;
  resp_brand : string;
  resp_model : string;
  resp_price : Z
}.

(** What a controller method can raise: the [HTTPException] it raises
    itself, the [ValidationError] of a response model, or an exception of
    the repository that it lets through. *)
Inductive error : Type :=
| HTTPException (status_code : Z) (detail : string)
| ValidationError
| Uncaught (e : Py.exn).

Inductive outcome (A : Type) : Type :=
| Return (a : A)
| Throw (e : error).
Arguments Return {A} a.
Arguments Throw {A} e.

(** [SneakerResponse.from_orm(obj)]: reads the four attributes and
    validates them; [None] is no [str] and no [int]. *)
Definition from_orm (obj : Sneaker) : outcome SneakerResponse :=
  match brand obj, model obj, price obj with
  | Some b, Some m, Some p => Return (mkSneakerResponse (id obj) b m p)
  | _, _, _ => Throw ValidationError
  end.

(** [[SneakerResponse.from_orm(sneaker) for sneaker in sneakers]]: in
    order, up to the first failure. *)
Fixpoint from_orm_all (sneakers : list Sneaker)
  : outcome (list SneakerResponse) :=
  match sneakers with
  | [] => Return []
  | sneaker :: rest =>
      match from_orm sneaker with
      | Throw e => Throw e
      | Return a =>
          match from_orm_all rest with
          | Throw e => Throw e
          | Return l => Return (a :: l)
          end
      end
  end.

Definition not_found : error := HTTPException 404 "Sneaker not found".

Section Controller.

Variable Base_getattr : string -> Py.obj column.

Definition list_sneakers (db : list Sneaker) (skip limit : Z)
           (sort_by sort_order : option string)
           (filter_brand : option string)
           (filter_price_min filter_price_max : option Z)
           (search : option string) : outcome (list SneakerResponse) :=
  match get_all Base_getattr db skip limit sort_by sort_order filter_brand
                filter_price_min filter_price_max search with
  | Py.Raise e => Throw (Uncaught e)
  | Py.Ok sneakers => from_orm_all sneakers
  end.

(** The route [GET /sneakers/]: a query parameter that the request leaves
    out ([None] here) takes its default, [0] for [skip], [10] for [limit],
    [asc] for [sort_order], [None] for the others. *)
Definition read_sneakers (db : list Sneaker) (skip limit : option Z)
           (sort_by sort_order : option string)
           (filter_brand : option string)
           (filter_price_min filter_price_max : option Z)
           (search : option string) : outcome (list SneakerResponse) :=
  list_sneakers db
    (match skip with Some n => n | None => 0 end)
    (match limit with Some n => n | None => 10 end)
    sort_by
    (Some (match sort_order with Some o => o | None => "asc" end))
    filter_brand filter_price_min filter_price_max search.

End Controller.

Definition get_sneaker (db : list Sneaker) (sneaker_id : Z)
  : outcome SneakerResponse :=
  match get_by_id db sneaker_id with
  | None => Throw not_found
  | Some sneaker => from_orm sneaker
  end.

Definition create_sneaker (db : list Sneaker) (sneaker_data : SneakerCreate)
  : list Sneaker * outcome SneakerResponse :=
  let '(db, sneaker) := create db sneaker_data in
  (db, from_orm sneaker).

Definition update_sneaker (db : list Sneaker) (sneaker_id : Z)
           (sneaker_data : SneakerUpdate)
  : list Sneaker * outcome SneakerResponse :=
  let '(db, sneaker) := update db sneaker_id sneaker_data in
  match sneaker with
  | None => (db, Throw not_found)
  | Some sneaker => (db, from_orm sneaker)
  end.

Definition delete_sneaker (db : list Sneaker) (sneaker_id : Z)
  : list Sneaker * outcome unit :=
  let '(db, deleted) := delete db sneaker_id in
  if negb deleted then (db, Throw not_found) else (db, Return tt).

End SneakerApi.

(* ================================================================== *)
(** ** vape.py: lookups and writes of the vape repository *)

Module VapeStore.

Section Floats.

Variable float : Type.

(** Whether a float is a NaN; left abstract with the type. *)
Variable float_is_nan : float -> bool.

Local Abbreviation Vape := (VapeApp.Vape float).
Local Abbreviation mkVape := (VapeApp.mkVape float).
Local Abbreviation id := (VapeApp.id float).
Local Abbreviation brand := (VapeApp.brand float).
Local Abbreviation model := (VapeApp.model float).
Local Abbreviation price := (VapeApp.price float).
Local Abbreviation power_level := (VapeApp.power_level float).

Record VapeCreate : Type := mkVapeCreate {
  create_brand : string;
  create_model : string;
  create_price : float;
  create_power_level : float
}.

(** As [SneakerUpdate]: [None] is a field left unset, [Some None] a field
    supplied as [null]. *)
Record VapeUpdate : Type := mkVapeUpdate {
  update_brand : option (option string);
  update_model : option (option string);
  update_price : option (option float);
  update_power_level : option (option float)
}.

(** What the engine keeps of a value written to a REAL column: a NaN is
    stored as NULL, every other float as it is. *)
Definition bind_real (v : option float) : option float :=
  match v with
  | Some x => if float_is_nan x then None else Some x
  | None => None
  end.

(** The row that INSERT writes for an object. *)
Definition to_row (obj : Vape) : Vape :=
  mkVape (id obj) (brand obj) (model obj) (bind_real (price obj))
         (bind_real (power_level obj)).

Definition get_by_id (db : list Vape) (vape_id : Z) : option Vape :=
  Sql.first db
    (Sql.filter Sql.query (fun r => Sql.eq_int (Some (id r)) vape_id)).

Definition max_rowid (db : list Vape) : option Z :=
  fold_right
    (fun r acc =>
       match acc with
       | None => Some (id r)
       | Some m => Some (Z.max (id r) m)
       end) None db.

Definition next_rowid (db : list Vape) : Z :=
  match max_rowid db with
  | None => 1
  | Some m => m + 1
  end.

Definition refresh (db : list Vape) (obj : Vape) : Vape :=
  match get_by_id db (id obj) with
  | Some r => r
  | None => obj
  end.

(** [db.add(obj); db.commit()]: INSERT of the row of the object, under
    the rowid that the engine assigns. *)
Definition add_commit (db : list Vape) (b m : option string)
           (p w : option float) : list Vape * Vape :=
  let obj := mkVape (next_rowid db) b m p w in
  ((db ++ [to_row obj])%list, obj).

Definition update_commit (db : list Vape) (obj : Vape) : list Vape :=
  map (fun r => if id r =? id obj then obj else r) db.

Definition delete_commit (db : list Vape) (obj : Vape) : list Vape :=
  List.filter (fun r => negb (id r =? id obj)) db.

Definition create (db : list Vape) (vape_data : VapeCreate)
  : list Vape * Vape :=
  let '(db, db_vape) :=
    add_commit db (Some (create_brand vape_data))
               (Some (create_model vape_data))
               (Some (create_price vape_data))
               (Some (create_power_level vape_data)) in
  (db, refresh db db_vape).

Inductive item : Type :=
| Item_brand (v : option string)
| Item_model (v : option string)
| Item_price (v : option float)
| Item_power_level (v : option float).

Definition dict_exclude_unset (d : VapeUpdate) : list item :=
  (match update_brand d with Some v => [Item_brand v] | None => [] end ++
   match update_model d with Some v => [Item_model v] | None => [] end ++
   match update_price d with Some v => [Item_price v] | None => [] end ++
   match update_power_level d with
   | Some v => [Item_power_level v]
   | None => []
   end)%list.

Definition setattr (obj : Vape) (kv : item) : Vape :=
  match kv with
  | Item_brand v =>
      mkVape (id obj) v (model obj) (price obj) (power_level obj)
  | Item_model v =>
      mkVape (id obj) (brand obj) v (price obj) (power_level obj)
  | Item_price v =>
      mkVape (id obj) (brand obj) (model obj) v (power_level obj)
  | Item_power_level v =>
      mkVape (id obj) (brand obj) (model obj) (price obj) v
  end.

(** The value that UPDATE writes for an attribute that was set. *)
Definition bound (kv : item) : item :=
  match kv with
  | Item_price v => Item_price (bind_real v)
  | Item_power_level v => Item_power_level (bind_real v)
  | other => other
  end.

(** The commit writes the columns of the attributes that were set, as the
    engine keeps them; the refresh reads the row again. *)
Definition update (db : list Vape) (vape_id : Z) (vape_data : VapeUpdate)
  : list Vape * option Vape :=
  match get_by_id db vape_id with
  | None => (db, None)
  | Some loaded =>
      let items := dict_exclude_unset vape_data in
      let db_vape := fold_left setattr items loaded in
      let db := update_commit db (fold_left setattr (map bound items) loaded) in
      (db, Some (refresh db db_vape))
  end.

Definition delete (db : list Vape) (vape_id : Z) : list Vape * bool :=
  match get_by_id db vape_id with
  | None => (db, false)
  | Some db_vape => (delete_commit db db_vape, true)
  end.

(** The NULL that stands for a NaN, every other value as it is. *)
Definition nan_as_null (v : option float) : option float :=
  match v with
  | Some x => if float_is_nan x then None else v
  | None => None
  end.

(** The row [r] with the supplied fields of [d] in place of its own, a NaN
    supplied for a float field read as NULL. *)
Definition merged (r : Vape) (d : VapeUpdate) : Vape :=
  mkVape (id r)
    (match update_brand d with Some v => v | None => brand r end)
    (match update_model d with Some v => v | None => model r end)
    (match update_price d with
     | Some v => nan_as_null v
     | None => price r
     end)
    (match update_power_level d with
     | Some v => nan_as_null v
     | None => power_level r
     end).

End Floats.

End VapeStore.

(* ================================================================== *)
(** ** More vocabulary: filters, partial inputs, complete rows *)

Module StoreSpec.
Import SneakerApp SneakerSpec SneakerApi.

(** The row passes the filters of a list call, said directly: the brand is
    the given one, the price is within the bounds, the search matches; an
    absent, empty or zero argument asks nothing, and a NULL field passes
    no test. *)
Definition passes (filter_brand : option string)
           (filter_price_min filter_price_max : option Z)
           (search : option string) (r : Sneaker) : bool :=
  match filter_brand with
  | Some (String _ _ as b) =>
      match brand r with Some x => String.eqb x b | None => false end
  | _ => true
  end &&
  match filter_price_min with
  | Some p =>
      if p =? 0 then true
      else match price r with Some x => p <=? x | None => false end
  | None => true
  end &&
  match filter_price_max with
  | Some p =>
      if p =? 0 then true
      else match price r with Some x => x <=? p | None => false end
  | None => true
  end &&
  match search with
  | Some (String _ _ as s) => matched s r
  | _ => true
  end.

(** The partial input that supplies what [d2] supplies and, for the rest,
    what [d1] supplies. *)
Definition override (d1 d2 : SneakerUpdate) : SneakerUpdate :=
  mkSneakerUpdate
    (match update_brand d2 with Some v => Some v | None => update_brand d1 end)
    (match update_model d2 with Some v => Some v | None => update_model d1 end)
    (match update_price d2 with Some v => Some v | None => update_price d1 end).

(** No field of the row is NULL. *)
Definition complete (r : Sneaker) : bool :=
  match brand r, model r, price r with
  | Some _, Some _, Some _ => true
  | _, _, _ => false
  end.

(** The partial input supplies some field as [null]. *)
Definition sets_null (d : SneakerUpdate) : bool :=
  match update_brand d with Some None => true | _ => false end ||
  match update_model d with Some None => true | _ => false end ||
  match update_price d with Some None => true | _ => false end.

(** The calls of a history supply no [null]. *)
Definition null_free (op : operation) : bool :=
  match op with
  | Update _ d => negb (sets_null d)
  | _ => true
  end.

(** The integers that the INTEGER class of the storage engine holds and
    that its driver accepts as arguments: 64 bits, signed.  An integer
    outside makes the driver raise, which is not modelled; the properties
    that say a call returns ask for integers inside. *)
Definition int64 (z : Z) : Prop := - 2 ^ 63 <= z < 2 ^ 63.

Definition opt_int64 (o : option Z) : Prop :=
  match o with
  | Some z => int64 z
  | None => True
  end.

(** The row that a response shows. *)
Definition row_of (resp : SneakerResponse) : Sneaker :=
  mkSneaker (resp_id resp) (Some (resp_brand resp)) (Some (resp_model resp))
            (Some (resp_price resp)).

End StoreSpec.

(* ================================================================== *)
(** ** Writes on a table with an integer key *)

Module Keyed.

Section Keyed.
Context {R : Type}.
Variable key : R -> Z.

(** UPDATE of the rows of the key of [obj]. *)
Definition replace (db : list R) (obj : R) : list R :=
  map (fun r => if key r =? key obj then obj else r) db.

(** DELETE of the rows of the key [i]. *)
Definition remove (db : list R) (i : Z) : list R :=
  List.filter (fun r => negb (key r =? i)) db.

(** The largest key, as INSERT looks it up. *)
Definition max_key (db : list R) : option Z :=
  fold_right
    (fun r acc =>
       match acc with
       | None => Some (key r)
       | Some m => Some (Z.max (key r) m)
       end) None db.

End Keyed.

End Keyed.

(* ================================================================== *)
(** ** Facts about the storage engine *)

Module SqlFacts.

Section Rows.
Context {R : Type}.

Lemma hd_error_firstn_1 (l : list R) : hd_error (firstn 1 l) = hd_error l.
Proof. destruct l; reflexivity. Qed.

Lemma hd_error_filter (f : R -> bool) (l : list R) :
  hd_error (List.filter f l) = find f l.
Proof.
  induction l as [|x l IH]; simpl; [reflexivity|].
  destruct (f x); simpl; auto.
Qed.

(** A query with one condition, asked for its first row, is a linear
    search of the table. *)
Lemma first_filter_find (table : list R) (c : R -> option bool) :
  Sql.first table (Sql.filter Sql.query c) =
  find (fun r => Sql.holds [c] r) table.
Proof.
  unfold Sql.first, Sql.all; cbn.
  change (Pos.to_nat 1) with 1%nat.
  rewrite hd_error_firstn_1. apply hd_error_filter.
Qed.

(** *** ORDER BY sorts, and only rearranges *)

Variable leb : R -> R -> bool.
Hypothesis leb_total : forall a b, leb a b = true \/ leb b a = true.

Let le (a b : R) : Prop := leb a b = true.

Lemma insert_sorted_HdRel (a x : R) (l : list R) :
  le a x -> HdRel le a l -> HdRel le a (Sql.insert_sorted leb x l).
Proof.
  intros Hax Hal. destruct l as [|y l]; simpl.
  - constructor; assumption.
  - destruct (leb x y); constructor; trivial.
    inversion Hal; assumption.
Qed.

Lemma insert_sorted_Sorted (x : R) (l : list R) :
  Sorted le l -> Sorted le (Sql.insert_sorted leb x l).
Proof.
  induction 1 as [|y l Hs IH Hhd]; simpl.
  - repeat constructor.
  - destruct (leb x y) eqn:E.
    + constructor; [constructor; assumption|]. constructor; exact E.
    + constructor; [assumption|].
      apply insert_sorted_HdRel; [|assumption].
      destruct (leb_total x y) as [H|H]; [congruence|exact H].
Qed.

Lemma insert_sorted_Permutation (x : R) (l : list R) :
  Permutation (Sql.insert_sorted leb x l) (x :: l).
Proof.
  induction l as [|y l IH]; simpl; [reflexivity|].
  destruct (leb x y); [reflexivity|].
  rewrite IH. apply perm_swap.
Qed.

Lemma sort_Permutation (l : list R) : Permutation (Sql.sort leb l) l.
Proof.
  induction l as [|x l IH]; simpl; [constructor|].
  rewrite insert_sorted_Permutation. constructor; assumption.
Qed.

Lemma apply_order_length (o : option (R -> R -> bool)) (l : list R) :
  List.length (Sql.apply_order o l) = List.length l.
Proof.
  destruct o as [f|]; simpl; [|reflexivity].
  clear. induction l as [|x l IH]; simpl; [reflexivity|].
  rewrite <- IH. generalize (Sql.sort f l) as s. clear.
  induction s as [|y s IH]; simpl; [reflexivity|].
  destruct (f x y); simpl; [reflexivity|]. rewrite IH. reflexivity.
Qed.

Lemma sort_Sorted (l : list R) : Sorted le (Sql.sort leb l).
Proof.
  induction l as [|x l IH]; simpl; [constructor|].
  apply insert_sorted_Sorted; assumption.
Qed.

End Rows.

Section Windows.
Context {R : Type}.
Variable le : R -> R -> Prop.

Lemma Sorted_tl (x : R) (l : list R) : Sorted le (x :: l) -> Sorted le l.
Proof. inversion 1; assumption. Qed.

Lemma Sorted_skipn (n : nat) (l : list R) :
  Sorted le l -> Sorted le (skipn n l).
Proof.
  revert l; induction n as [|n IH]; intros l H; simpl; [assumption|].
  destruct l as [|x l]; [constructor|].
  apply IH. eapply Sorted_tl; eassumption.
Qed.

Lemma Sorted_firstn (n : nat) (l : list R) :
  Sorted le l -> Sorted le (firstn n l).
Proof.
  revert l; induction n as [|n IH]; intros l H; simpl; [constructor|].
  destruct l as [|x l]; [constructor|].
  inversion H as [|? ? Hs Hhd]; subst.
  constructor; [apply IH; assumption|].
  destruct n; simpl; [constructor|].
  destruct l; [constructor|].
  inversion Hhd; subst. constructor; assumption.
Qed.

(** OFFSET and LIMIT keep a sorted result sorted. *)
Lemma window_Sorted (o n : option Z) (l : list R) :
  Sorted le l -> Sorted le (Sql.apply_limit n (Sql.apply_offset o l)).
Proof.
  intros H.
  assert (Sorted le (Sql.apply_offset o l)) as H'.
  { destruct o; simpl; [apply Sorted_skipn|]; assumption. }
  destruct n as [n|]; simpl; [|assumption].
  destruct (n <? 0); [assumption|]. apply Sorted_firstn; assumption.
Qed.

End Windows.

End SqlFacts.

(* ================================================================== *)
(** ** Facts about the sneaker repository: lookups and writes *)

Module SneakerFacts.
Import SneakerApp SneakerSpec.

Lemma find_ext_eq {A : Type} (f g : A -> bool) (l : list A) :
  (forall x, f x = g x) -> find f l = find g l.
Proof.
  intros E; induction l as [|x l IH]; simpl; [reflexivity|].
  rewrite E, IH; reflexivity.
Qed.

(** [get_by_id] is the search for the first row of that key. *)
Lemma get_by_id_find (db : list Sneaker) (i : Z) :
  get_by_id db i = find (fun r => id r =? i) db.
Proof.
  unfold get_by_id. rewrite SqlFacts.first_filter_find.
  apply find_ext_eq. intros r; simpl.
  destruct (id r =? i); reflexivity.
Qed.

Lemma get_by_id_id (db : list Sneaker) (i : Z) (r : Sneaker) :
  get_by_id db i = Some r -> id r = i /\ In r db.
Proof.
  rewrite get_by_id_find. intros H.
  apply find_some in H. destruct H as [Hin E].
  apply Z.eqb_eq in E. auto.
Qed.

Lemma get_by_id_absent (db : list Sneaker) (i : Z) :
  ~ In i (map id db) -> get_by_id db i = None.
Proof.
  rewrite get_by_id_find. intros H.
  destruct (find (fun r => id r =? i) db) as [r|] eqn:E; [|reflexivity].
  apply find_some in E. destruct E as [Hin E]. apply Z.eqb_eq in E.
  exfalso; apply H. rewrite <- E. apply in_map; assumption.
Qed.

Lemma get_by_id_present (db : list Sneaker) (i : Z) :
  In i (map id db) -> exists r, get_by_id db i = Some r.
Proof.
  rewrite get_by_id_find. intros H.
  apply in_map_iff in H. destruct H as [x [E Hin]].
  destruct (find (fun r => id r =? i) db) as [r|] eqn:F; [eauto|].
  exfalso. apply (find_none _ _ F) in Hin.
  rewrite E, Z.eqb_refl in Hin. discriminate.
Qed.

Lemma max_rowid_bound (db : list Sneaker) (r : Sneaker) :
  In r db -> exists m, max_rowid db = Some m /\ id r <= m.
Proof.
  induction db as [|x db IH]; simpl; [tauto|].
  intros [E|Hin].
  - subst x. destruct (max_rowid db) as [m|]; eexists; split;
      try reflexivity; lia.
  - destruct (IH Hin) as [m [E Hle]]. rewrite E.
    eexists; split; [reflexivity|lia].
Qed.

(** The rowid of an insert is above every rowid of the table. *)
Lemma next_rowid_above (db : list Sneaker) (r : Sneaker) :
  In r db -> id r < next_rowid db.
Proof.
  intros Hin. destruct (max_rowid_bound db r Hin) as [m [E Hle]].
  unfold next_rowid. rewrite E. lia.
Qed.

Lemma next_rowid_fresh (db : list Sneaker) : ~ In (next_rowid db) (map id db).
Proof.
  intros H. apply in_map_iff in H. destruct H as [r [E Hin]].
  apply next_rowid_above in Hin. lia.
Qed.

Lemma get_by_id_app_new (db : list Sneaker) (obj : Sneaker) :
  ~ In (id obj) (map id db) ->
  get_by_id (db ++ [obj]) (id obj) = Some obj.
Proof.
  intros H. rewrite get_by_id_find.
  pose proof (get_by_id_absent db (id obj) H) as N.
  rewrite get_by_id_find in N.
  induction db as [|x db IH]; simpl in *.
  - rewrite Z.eqb_refl; reflexivity.
  - destruct (id x =? id obj) eqn:E; [discriminate|].
    apply IH; tauto.
Qed.

(** What [create] does, in one equation. *)
Lemma create_eq (db : list Sneaker) (d : SneakerCreate) :
  let obj := mkSneaker (next_rowid db) (Some (create_brand d))
               (Some (create_model d)) (Some (create_price d)) in
  create db d = ((db ++ [obj])%list, obj).
Proof.
  intros obj. unfold create, add_commit, refresh. fold obj.
  rewrite (get_by_id_app_new db obj); [reflexivity|].
  apply next_rowid_fresh.
Qed.

(** *** Writes *)

Lemma setattr_loop (r : Sneaker) (d : SneakerUpdate) :
  fold_left setattr (dict_exclude_unset d) r = merged r d.
Proof.
  destruct r as [i b m p], d as [[ub|] [um|] [up|]]; reflexivity.
Qed.

Lemma update_commit_ids (db : list Sneaker) (obj : Sneaker) :
  map id (update_commit db obj) = map id db.
Proof.
  unfold update_commit. rewrite map_map. apply map_ext_in.
  intros r _. destruct (id r =? id obj) eqn:E; [|reflexivity].
  apply Z.eqb_eq in E. congruence.
Qed.

Lemma get_by_id_update_commit_same (db : list Sneaker) (r obj : Sneaker) :
  get_by_id db (id obj) = Some r ->
  get_by_id (update_commit db obj) (id obj) = Some obj.
Proof.
  rewrite !get_by_id_find. unfold update_commit.
  induction db as [|x db IH]; simpl; [discriminate|].
  destruct (id x =? id obj) eqn:E.
  - intros _. rewrite Z.eqb_refl. reflexivity.
  - rewrite E. exact IH.
Qed.

Lemma get_by_id_update_commit_other (db : list Sneaker) (obj : Sneaker)
      (j : Z) :
  j <> id obj ->
  get_by_id (update_commit db obj) j = get_by_id db j.
Proof.
  intros N. rewrite !get_by_id_find. unfold update_commit.
  induction db as [|x db IH]; simpl; [reflexivity|].
  destruct (id x =? id obj) eqn:E.
  - apply Z.eqb_eq in E.
    destruct (id obj =? j) eqn:F; [apply Z.eqb_eq in F; congruence|].
    destruct (id x =? j) eqn:G; [apply Z.eqb_eq in G; congruence|].
    exact IH.
  - destruct (id x =? j); [reflexivity|exact IH].
Qed.

(** Under the primary key, writing back the row that was read changes
    nothing. *)
Lemma update_commit_same_row (db : list Sneaker) (r : Sneaker) :
  NoDup (map id db) -> In r db -> update_commit db r = db.
Proof.
  unfold update_commit.
  induction db as [|x db IH]; simpl; [reflexivity|].
  intros ND Hin. inversion ND as [|? ? Hx ND']; subst.
  destruct Hin as [E|Hin].
  - subst x. rewrite Z.eqb_refl. f_equal.
    rewrite <- (map_id db) at 2. apply map_ext_in.
    intros y Hy. destruct (id y =? id r) eqn:E; [|reflexivity].
    apply Z.eqb_eq in E. exfalso; apply Hx. rewrite <- E.
    apply in_map; assumption.
  - destruct (id x =? id r) eqn:E.
    + apply Z.eqb_eq in E. exfalso; apply Hx. rewrite E.
      apply in_map; assumption.
    + f_equal. apply IH; assumption.
Qed.

(** What [update] does on a key that is there, in one equation. *)
Lemma update_eq (db : list Sneaker) (i : Z) (d : SneakerUpdate) (r : Sneaker) :
  get_by_id db i = Some r ->
  update db i d = (update_commit db (merged r d), Some (merged r d)).
Proof.
  intros H. unfold update. rewrite H, setattr_loop.
  destruct (get_by_id_id _ _ _ H) as [E _].
  unfold refresh.
  rewrite (get_by_id_update_commit_same db r (merged r d));
    [reflexivity|]. simpl. rewrite E. exact H.
Qed.

Lemma delete_commit_rows (db : list Sneaker) (obj r : Sneaker) :
  In r (delete_commit db obj) <-> In r db /\ id r <> id obj.
Proof.
  unfold delete_commit. rewrite filter_In.
  destruct (id r =? id obj) eqn:E; simpl.
  - apply Z.eqb_eq in E. intuition congruence.
  - apply Z.eqb_neq in E. intuition congruence.
Qed.

Lemma NoDup_map_filter {A B : Type} (f : A -> B) (p : A -> bool) (l : list A) :
  NoDup (map f l) -> NoDup (map f (List.filter p l)).
Proof.
  induction l as [|x l IH]; simpl; [trivial|].
  intros ND. inversion ND as [|? ? Hx ND']; subst.
  destruct (p x); simpl; [|auto].
  constructor; [|auto].
  intros H. apply Hx. apply in_map_iff in H. destruct H as [y [E Hy]].
  apply filter_In in Hy. rewrite <- E. apply in_map; tauto.
Qed.

(** Every call keeps the keys of the table distinct. *)
Lemma step_NoDup (db : list Sneaker) (op : operation) :
  NoDup (map id db) -> NoDup (map id (step db op)).
Proof.
  intros ND. destruct op as [d|i d|i]; cbv [step].
  - pose proof (create_eq db d) as E. cbv zeta in E. rewrite E.
    cbn [fst]. rewrite map_app. apply NoDup_app; trivial.
    + repeat constructor. simpl; tauto.
    + intros a Ha [Hb|[]]. subst a. revert Ha. apply next_rowid_fresh.
  - unfold update. destruct (get_by_id db i); simpl; [|assumption].
    rewrite update_commit_ids; assumption.
  - unfold delete. destruct (get_by_id db i); simpl; [|assumption].
    apply NoDup_map_filter; assumption.
Qed.

Lemma run_snoc (ops : list operation) (op : operation) :
  run (ops ++ [op]) = step (run ops) op.
Proof. unfold run. rewrite fold_left_app. reflexivity. Qed.

Lemma run_NoDup (ops : list operation) : NoDup (map id (run ops)).
Proof.
  induction ops as [|op ops IH] using rev_ind.
  - constructor.
  - rewrite run_snoc. apply step_NoDup; assumption.
Qed.

End SneakerFacts.

(* ================================================================== *)
(** ** The properties of the record store *)

Import SneakerApp SneakerSpec.

(** C1. For every create input, [get_by_id] with the key that [create]
    assigned, called right after the create, returns the created record:
    its brand, model and price are those of the input and its key is the
    assigned one, a key no earlier row had. *)
Theorem create_then_get_by_id (db : list Sneaker) (d : SneakerCreate) :
  get_by_id (fst (create db d)) (id (snd (create db d)))
    = Some (snd (create db d)) /\
  brand (snd (create db d)) = Some (create_brand d) /\
  model (snd (create db d)) = Some (create_model d) /\
  price (snd (create db d)) = Some (create_price d) /\
  ~ In (id (snd (create db d))) (map id db).
Proof.
  pose proof (SneakerFacts.create_eq db d) as E. cbv zeta in E.
  rewrite E. cbn [fst snd id brand model price].
  repeat split.
  - apply (SneakerFacts.get_by_id_app_new db
             (mkSneaker (next_rowid db) (Some (create_brand d))
                (Some (create_model d)) (Some (create_price d)))).
    apply SneakerFacts.next_rowid_fresh.
  - apply SneakerFacts.next_rowid_fresh.
Qed.

(** C2. For a key that no row of the store has, [get_by_id] returns [None],
    [update] returns [None] and leaves the store as it was (nothing is
    created), and [delete] returns [False] and leaves the store as it was.
    All three return a value: none raises. *)
Theorem absent_id_reports_absence (db : list Sneaker) (i : Z) :
  ~ In i (map id db) ->
  get_by_id db i = None /\
  (forall d : SneakerUpdate, update db i d = (db, None)) /\
  delete db i = (db, false).
Proof.
  intros H. pose proof (SneakerFacts.get_by_id_absent db i H) as N.
  unfold update, delete. rewrite N. auto.
Qed.

Lemma absent_id_reports_absence_witness :
  get_by_id [nike; nixon] 7 = None /\
  (forall d : SneakerUpdate,
      update [nike; nixon] 7 d = ([nike; nixon], None)) /\
  delete [nike; nixon] 7 = ([nike; nixon], false).
Proof.
  apply (absent_id_reports_absence [nike; nixon] 7).
  simpl. intros [H|[H|[]]]; discriminate.
Defined.

(** C3. For a record that is in the store (whose keys are distinct, as a
    primary key is) and every partial input, [update] returns and stores
    the record with exactly the supplied fields replaced and every omitted
    field, and the key, as before; the other records are as before; and
    the empty partial input changes nothing at all. *)
Theorem update_applies_supplied_fields (db : list Sneaker) (i : Z)
        (d : SneakerUpdate) (r : Sneaker) :
  NoDup (map id db) ->
  get_by_id db i = Some r ->
  snd (update db i d) = Some (merged r d) /\
  get_by_id (fst (update db i d)) i = Some (merged r d) /\
  (forall j, j <> i -> get_by_id (fst (update db i d)) j = get_by_id db j) /\
  update db i (mkSneakerUpdate None None None) = (db, Some r).
Proof.
  intros ND H.
  destruct (SneakerFacts.get_by_id_id _ _ _ H) as [E Hin].
  rewrite !(SneakerFacts.update_eq db i _ r H). cbn [fst snd].
  repeat split.
  - subst i.
    apply (SneakerFacts.get_by_id_update_commit_same db r (merged r d)).
    exact H.
  - intros j N. apply SneakerFacts.get_by_id_update_commit_other.
    simpl. congruence.
  - assert (merged r (mkSneakerUpdate None None None) = r) as M
        by (destruct r; reflexivity).
    rewrite M. rewrite SneakerFacts.update_commit_same_row; trivial.
Qed.

Lemma update_applies_supplied_fields_witness :
  snd (update [nike; nixon] 2 (mkSneakerUpdate None None (Some (Some 120))))
    = Some (mkSneaker 2 (Some "Puma") (Some "Nixon Runner") (Some 120)) /\
  update [nike; nixon] 2 (mkSneakerUpdate None None None)
    = ([nike; nixon], Some nixon).
Proof.
  assert (NoDup (map id [nike; nixon])) as ND.
  { simpl. repeat constructor; simpl; intuition discriminate. }
  destruct (update_applies_supplied_fields [nike; nixon] 2
              (mkSneakerUpdate None None (Some (Some 120))) nixon ND
              eq_refl) as [A [_ [_ B]]].
  split; [exact A|exact B].
Defined.

(** C9. The key of a record never changes.  In every store that a history
    of creates, updates and deletes leads to, the keys of the rows are
    distinct; an update leaves the key of every row as it was, row by row,
    and returns a record with the key it was asked for; a create adds one
    row after the existing ones, which stay as they are; a delete leaves
    only rows that were there. *)
Theorem id_unique_and_never_changes (ops : list operation) :
  NoDup (map id (run ops)) /\
  (forall i d, map id (fst (update (run ops) i d)) = map id (run ops)) /\
  (forall i d r, snd (update (run ops) i d) = Some r -> id r = i) /\
  (forall d, fst (create (run ops) d)
             = (run ops ++ [snd (create (run ops) d)])%list) /\
  (forall i r, In r (fst (delete (run ops) i)) -> In r (run ops)).
Proof.
  split; [apply SneakerFacts.run_NoDup|].
  generalize (run ops) as db. intros db. repeat split.
  - intros i d. unfold update.
    destruct (get_by_id db i); [|reflexivity].
    cbn [fst]. apply SneakerFacts.update_commit_ids.
  - intros i d r. destruct (get_by_id db i) as [r0|] eqn:G.
    + rewrite (SneakerFacts.update_eq db i d r0 G). cbn [snd].
      intros [= <-]. simpl.
      apply (SneakerFacts.get_by_id_id _ _ _ G).
    + unfold update. rewrite G. discriminate.
  - intros d. pose proof (SneakerFacts.create_eq db d) as E.
    cbv zeta in E. rewrite E. reflexivity.
  - intros i r. unfold delete.
    destruct (get_by_id db i); cbn [fst]; [|trivial].
    intros H. apply SneakerFacts.delete_commit_rows in H. tauto.
Qed.

(* ================================================================== *)
(** ** Facts about the list query *)

Module QueryFacts.

Section WithBase.
Variable Base_getattr : string -> Py.obj column.

(** The sorting step depends on the query it is given only to carry it
    along: it either raises, or sets the order, or changes nothing. *)
Lemma apply_sort_spec (q : Sql.Query Sneaker)
      (sort_by sort_order : option string) :
  apply_sort Base_getattr q sort_by sort_order =
  match apply_sort Base_getattr Sql.query sort_by sort_order with
  | Py.Raise e => Py.Raise e
  | Py.Ok q0 =>
      Py.Ok match Sql.q_order q0 with
            | None => q
            | Some leb => Sql.order_by q leb
            end
  end.
Proof.
  unfold apply_sort.
  destruct sort_by as [name|]; [|reflexivity].
  destruct (Py.str_bool name); [|reflexivity].
  destruct (getattr Base_getattr name); try reflexivity;
    destruct sort_order as [order|]; try reflexivity;
    destruct (String.eqb (Py.lower order) "desc"); reflexivity.
Qed.

Lemma apply_filters_shape (fb : option string) (pmin pmax : option Z)
      (search : option string) :
  let q := apply_filters Sql.query fb pmin pmax search in
  Sql.q_order q = None /\ Sql.q_offset q = None /\ Sql.q_limit q = None.
Proof.
  unfold apply_filters.
  destruct fb as [b|]; [destruct (Py.str_bool b)|];
    (destruct pmin as [p|]; [destruct (Py.int_bool p)|]);
    (destruct pmax as [p'|]; [destruct (Py.int_bool p')|]);
    (destruct search as [s|]; [destruct (Py.str_bool s)|]);
    simpl; auto.
Qed.

(** What [get_all] returns: an exception of the sorting step, or the
    window of the matching rows in the order that step chose. *)
Lemma get_all_spec (db : list Sneaker) (skip limit : Z)
      (sort_by sort_order fb : option string) (pmin pmax : option Z)
      (search : option string) :
  get_all Base_getattr db skip limit sort_by sort_order fb pmin pmax search =
  match apply_sort Base_getattr Sql.query sort_by sort_order with
  | Py.Raise e => Py.Raise e
  | Py.Ok q0 =>
      Py.Ok (window skip limit
               (Sql.apply_order (Sql.q_order q0)
                  (matching db fb pmin pmax search)))
  end.
Proof.
  unfold get_all. rewrite apply_sort_spec.
  destruct (apply_filters_shape fb pmin pmax search) as [O _].
  destruct (apply_sort Base_getattr Sql.query sort_by sort_order)
    as [q0|e]; [|reflexivity].
  simpl. unfold window, matching, Sql.all. f_equal.
  destruct (Sql.q_order q0); simpl; [reflexivity|].
  rewrite O. reflexivity.
Qed.

Lemma declared_field_getattr (name : string) (c : column) :
  declared_field name = Some c ->
  Py.str_bool name = true /\ getattr Base_getattr name = Py.PyColumn c.
Proof.
  unfold declared_field, getattr.
  destruct (String.eqb name "id") eqn:E1;
    [apply String.eqb_eq in E1; subst; intros [= <-]; auto|].
  destruct (String.eqb name "brand") eqn:E2;
    [apply String.eqb_eq in E2; subst; intros [= <-]; auto|].
  destruct (String.eqb name "model") eqn:E3;
    [apply String.eqb_eq in E3; subst; intros [= <-]; auto|].
  destruct (String.eqb name "price") eqn:E4;
    [apply String.eqb_eq in E4; subst; intros [= <-]; auto|].
  discriminate.
Qed.

End WithBase.

Lemma window_nil (skip limit : Z) : window skip limit [] = [].
Proof.
  unfold window; simpl. rewrite skipn_nil.
  destruct (limit <? 0); [reflexivity|apply firstn_nil].
Qed.

Lemma window_limit_0 (skip : Z) (l : list Sneaker) : window skip 0 l = [].
Proof. reflexivity. Qed.

Lemma window_skip_all (skip limit : Z) (l : list Sneaker) :
  Z.of_nat (List.length l) <= skip -> window skip limit l = [].
Proof.
  intros H. unfold window; simpl.
  rewrite skipn_all2 by lia.
  destruct (limit <? 0); [reflexivity|apply firstn_nil].
Qed.

(** The test on [sort_order.lower()] is the comparison with the word desc
    in any mix of cases. *)
Lemma lower_char_d (a : ascii) :
  Ascii.eqb (Py.lower_char a) "d" = letter "d" "D" a.
Proof. destruct a as [[] [] [] [] [] [] [] []]; reflexivity. Qed.

Lemma lower_char_e (a : ascii) :
  Ascii.eqb (Py.lower_char a) "e" = letter "e" "E" a.
Proof. destruct a as [[] [] [] [] [] [] [] []]; reflexivity. Qed.

Lemma lower_char_s (a : ascii) :
  Ascii.eqb (Py.lower_char a) "s" = letter "s" "S" a.
Proof. destruct a as [[] [] [] [] [] [] [] []]; reflexivity. Qed.

Lemma lower_char_c (a : ascii) :
  Ascii.eqb (Py.lower_char a) "c" = letter "c" "C" a.
Proof. destruct a as [[] [] [] [] [] [] [] []]; reflexivity. Qed.

Lemma lower_desc (order : string) :
  String.eqb (Py.lower order) "desc" = is_desc order.
Proof.
  destruct order as [|a [|b [|c [|d [|e order]]]]]; simpl;
    rewrite ?lower_char_d, ?lower_char_e, ?lower_char_s, ?lower_char_c;
    try reflexivity.
  - destruct (letter "d" "D" a); reflexivity.
  - destruct (letter "d" "D" a), (letter "e" "E" b); reflexivity.
  - destruct (letter "d" "D" a), (letter "e" "E" b), (letter "s" "S" c);
      reflexivity.
  - destruct (letter "d" "D" a), (letter "e" "E" b), (letter "s" "S" c),
      (letter "c" "C" d); reflexivity.
  - destruct (letter "d" "D" a), (letter "e" "E" b), (letter "s" "S" c),
      (letter "c" "C" d); reflexivity.
Qed.

Lemma nulls_first_total {A : Type} (leb : A -> A -> bool) :
  (forall x y, leb x y = true \/ leb y x = true) ->
  forall a b, Sql.nulls_first leb a b = true \/ Sql.nulls_first leb b a = true.
Proof. intros T [x|] [y|]; simpl; auto. Qed.

Lemma Z_leb_total (x y : Z) : (x <=? y) = true \/ (y <=? x) = true.
Proof. destruct (Z.leb_spec x y); [auto|right; apply Z.leb_le; lia]. Qed.

(** The order of a column compares any two rows. *)
Lemma col_leb_total (c : column) (r1 r2 : Sneaker) :
  col_leb c r1 r2 = true \/ col_leb c r2 r1 = true.
Proof.
  destruct c; simpl.
  - apply Z_leb_total.
  - apply nulls_first_total, String.leb_total.
  - apply nulls_first_total, String.leb_total.
  - apply nulls_first_total, Z_leb_total.
Qed.

(** The comparisons of the engine are the orders of the values. *)
Lemma string_leb_text_le (s t : string) :
  String.leb s t = true <-> text_le s t.
Proof.
  unfold String.leb. revert t.
  induction s as [|a s IH]; intros [|b t]; simpl; try tauto.
  - split; [discriminate|tauto].
  - unfold Ascii.compare.
    destruct (N.compare_spec (N_of_ascii a) (N_of_ascii b)) as [E|L|G].
    + assert (a = b) as ->.
      { rewrite <- (ascii_N_embedding a), <- (ascii_N_embedding b), E.
        reflexivity. }
      rewrite IH. split; [auto|]. intros [L|[_ H]]; [lia|exact H].
    + split; [auto|reflexivity].
    + split; [discriminate|]. intros [L|[E _]]; [lia|].
      subst b. lia.
Qed.

Lemma nulls_first_null_le {A : Type} (leb : A -> A -> bool)
      (le : A -> A -> Prop) :
  (forall x y, leb x y = true <-> le x y) ->
  forall a b, Sql.nulls_first leb a b = true <-> null_le le a b.
Proof.
  intros H [x|] [y|]; simpl; try tauto.
  - apply H.
  - split; [discriminate|tauto].
Qed.

Lemma col_leb_field_le (c : column) (r1 r2 : Sneaker) :
  col_leb c r1 r2 = true <-> field_le c r1 r2.
Proof.
  destruct c; simpl.
  - apply Z.leb_le.
  - apply nulls_first_null_le, string_leb_text_le.
  - apply nulls_first_null_le, string_leb_text_le.
  - apply nulls_first_null_le. intros x y. apply Z.leb_le.
Qed.

Lemma Sorted_weaken {A : Type} (P Q : A -> A -> Prop) (l : list A) :
  (forall a b, P a b -> Q a b) -> Sorted P l -> Sorted Q l.
Proof.
  intros W. induction 1 as [|x l S IH H]; constructor; [exact IH|].
  destruct H; constructor; auto.
Qed.

(** What ORDER BY gives on a column goes up, or down, along the field. *)
Lemma sort_asc_ascending (c : column) (l : list Sneaker) :
  ascending c (Sql.sort (col_asc c) l).
Proof.
  apply (Sorted_weaken (fun a b => col_asc c a b = true)).
  - intros a b. apply col_leb_field_le.
  - apply (SqlFacts.sort_Sorted (col_asc c)).
    intros a b. apply col_leb_total.
Qed.

Lemma sort_desc_descending (c : column) (l : list Sneaker) :
  descending c (Sql.sort (col_desc c) l).
Proof.
  apply (Sorted_weaken (fun a b => col_desc c a b = true)).
  - intros a b. apply col_leb_field_le.
  - apply (SqlFacts.sort_Sorted (col_desc c)).
    intros a b. apply col_leb_total.
Qed.

End QueryFacts.

(* ================================================================== *)
(** ** Facts about LIKE *)

Module LikeFacts.

Lemma append_assoc (a b c : string) : (a ++ b) ++ c = a ++ (b ++ c).
Proof.
  induction a as [|x a IH]; simpl; [reflexivity|].
  rewrite IH; reflexivity.
Qed.



(** *** Occurrence as written *)



(** *** The pattern [%] *)




(** *** Patterns without wildcards *)




(** *** Any pattern matches itself *)





End LikeFacts.

(* ================================================================== *)
(** ** The properties of the list query *)

(** C4. In every list call, a price minimum of exactly [0] gives the very
    result of an absent minimum, and a price maximum of exactly [0] the
    very result of an absent maximum: zero is no bound. *)
Theorem price_bound_zero_is_no_bound
        (Base_getattr : string -> Py.obj column) (db : list Sneaker)
        (skip limit : Z) (sort_by sort_order filter_brand : option string)
        (filter_price_min filter_price_max : option Z)
        (search : option string) :
  get_all Base_getattr db skip limit sort_by sort_order filter_brand
          (Some 0) filter_price_max search
  = get_all Base_getattr db skip limit sort_by sort_order filter_brand
            None filter_price_max search /\
  get_all Base_getattr db skip limit sort_by sort_order filter_brand
          filter_price_min (Some 0) search
  = get_all Base_getattr db skip limit sort_by sort_order filter_brand
            filter_price_min None search.
Proof. split; reflexivity. Qed.

(** A name that [getattr] resolves to [None] is skipped: the call returns
    what it returns without [sort_by]. *)
Lemma unresolved_sort_by_is_skipped
      (Base_getattr : string -> Py.obj column) (db : list Sneaker)
      (skip limit : Z) (name : string) (sort_order filter_brand : option string)
      (filter_price_min filter_price_max : option Z) (search : option string) :
  getattr Base_getattr name = Py.PyNone ->
  get_all Base_getattr db skip limit (Some name) sort_order filter_brand
          filter_price_min filter_price_max search
  = get_all Base_getattr db skip limit None sort_order filter_brand
            filter_price_min filter_price_max search.
Proof.
  intros H. unfold get_all, apply_sort. rewrite H.
  destruct (Py.str_bool name); reflexivity.
Qed.

(** C5, at the input where it fails.  [__tablename__] is not a declared
    field, yet [getattr] finds it in the class body: it is the string
    [sneakers], which is not [None] and has no [asc] and no [desc].  The
    list call raises [AttributeError], whatever the other arguments. *)
Theorem sort_by_tablename_raises
        (Base_getattr : string -> Py.obj column) (db : list Sneaker)
        (skip limit : Z) (sort_order filter_brand : option string)
        (filter_price_min filter_price_max : option Z)
        (search : option string) :
  declared_field "__tablename__" = None /\
  get_all Base_getattr db skip limit (Some "__tablename__") sort_order
          filter_brand filter_price_min filter_price_max search
  = Py.Raise Py.AttributeError.
Proof.
  split; [reflexivity|].
  unfold get_all, apply_sort; simpl.
  destruct sort_order as [order|]; [|reflexivity].
  destruct (String.eqb (Py.lower order) "desc"); reflexivity.
Qed.

(** Whenever the sorting step of a list call goes through, the call
    returns a list: the empty one if [limit] is [0], whatever the store
    holds; the empty one if [skip] is at least the number of matching
    rows; the empty one if no row matches. *)
Lemma empty_pages
        (Base_getattr : string -> Py.obj column) (db : list Sneaker)
        (skip limit : Z) (sort_by sort_order filter_brand : option string)
        (filter_price_min filter_price_max : option Z)
        (search : option string) :
  sort_accepted Base_getattr sort_by sort_order = true ->
  get_all Base_getattr db skip 0 sort_by sort_order filter_brand
          filter_price_min filter_price_max search = Py.Ok [] /\
  (Z.of_nat (List.length
               (matching db filter_brand filter_price_min filter_price_max
                         search)) <= skip ->
   get_all Base_getattr db skip limit sort_by sort_order filter_brand
           filter_price_min filter_price_max search = Py.Ok []) /\
  (matching db filter_brand filter_price_min filter_price_max search = [] ->
   get_all Base_getattr db skip limit sort_by sort_order filter_brand
           filter_price_min filter_price_max search = Py.Ok []) /\
  (exists l,
      get_all Base_getattr db skip limit sort_by sort_order filter_brand
              filter_price_min filter_price_max search = Py.Ok l).
Proof.
  unfold sort_accepted. intros A.
  rewrite !QueryFacts.get_all_spec.
  destruct (apply_sort Base_getattr Sql.query sort_by sort_order)
    as [q0|e]; [|discriminate].
  repeat split.
  - intros H. f_equal. apply QueryFacts.window_skip_all.
    rewrite SqlFacts.apply_order_length. exact H.
  - intros H. rewrite H. f_equal.
    destruct (Sql.q_order q0); apply QueryFacts.window_nil.
  - eexists; reflexivity.
Qed.

Lemma empty_pages_witness :
  get_all no_attrs [nike; nixon] 2 10 (Some "price") (Some "desc")
          None None None (Some "Ni") = Py.Ok [] /\
  get_all no_attrs [nike; nixon] 0 0 (Some "price") (Some "desc")
          None None None (Some "Ni") = Py.Ok [].
Proof.
  destruct (empty_pages no_attrs [nike; nixon] 2 10 (Some "price")
              (Some "desc") None None None (Some "Ni") eq_refl)
    as [_ [A _]].
  destruct (empty_pages no_attrs [nike; nixon] 0 0 (Some "price")
              (Some "desc") None None None (Some "Ni") eq_refl)
    as [B _].
  split; [apply A; vm_compute; discriminate|exact B].
Defined.

(** C7, at the input where it fails.  With [sort_by] the name
    [__tablename__] the list call raises [AttributeError] before any row
    is read: with [limit] [0] it does not return the empty list, and with
    [skip] at or beyond the number of matching rows it does not either.
    This is the defect of the sorting step shown above; where that step
    goes through, the call returns the empty list in all the cases of the
    claim ([empty_pages]). *)
Theorem limit_zero_still_raises_on_tablename
        (Base_getattr : string -> Py.obj column) (db : list Sneaker)
        (skip limit : Z) (sort_order filter_brand : option string)
        (filter_price_min filter_price_max : option Z)
        (search : option string) :
  get_all Base_getattr db skip 0 (Some "__tablename__") sort_order
          filter_brand filter_price_min filter_price_max search
  = Py.Raise Py.AttributeError /\
  get_all Base_getattr db
          (Z.of_nat (List.length
                       (matching db filter_brand filter_price_min
                                 filter_price_max search)))
          limit (Some "__tablename__") sort_order
          filter_brand filter_price_min filter_price_max search
  = Py.Raise Py.AttributeError /\
  get_all Base_getattr [] skip limit (Some "__tablename__") sort_order
          filter_brand filter_price_min filter_price_max search
  = Py.Raise Py.AttributeError.
Proof.
  assert (forall q, apply_sort Base_getattr q (Some "__tablename__")
                               sort_order
                    = Py.Raise Py.AttributeError) as R.
  { intros q. unfold apply_sort; simpl.
    destruct sort_order as [order|]; [|reflexivity].
    destruct (String.eqb (Py.lower order) "desc"); reflexivity. }
  unfold get_all. rewrite !R. auto.
Qed.

(** C8. When [sort_by] names a declared field, the list call returns the
    window of the matching rows put in the order of that field: going down
    if [sort_order] is the word desc in any mix of cases, going up for
    every other string, [asc] included.  Going up along a field means
    that each row's value of the field is at most the next row's: a
    smaller integer, an earlier text, NULL before any value. *)
Theorem sort_order_direction
        (Base_getattr : string -> Py.obj column) (db : list Sneaker)
        (skip limit : Z) (name order : string) (c : column)
        (filter_brand : option string)
        (filter_price_min filter_price_max : option Z)
        (search : option string) :
  declared_field name = Some c ->
  exists sorted,
    Permutation sorted
      (matching db filter_brand filter_price_min filter_price_max search) /\
    get_all Base_getattr db skip limit (Some name) (Some order) filter_brand
            filter_price_min filter_price_max search
    = Py.Ok (window skip limit sorted) /\
    if is_desc order
    then descending c sorted /\ descending c (window skip limit sorted)
    else ascending c sorted /\ ascending c (window skip limit sorted).
Proof.
  intros D.
  destruct (QueryFacts.declared_field_getattr Base_getattr name c D) as [T G].
  rewrite QueryFacts.get_all_spec. unfold apply_sort.
  rewrite T, G, QueryFacts.lower_desc.
  set (m := matching db filter_brand filter_price_min filter_price_max search).
  destruct (is_desc order); simpl.
  - exists (Sql.sort (col_desc c) m). split; [|split; [reflexivity|]].
    + apply SqlFacts.sort_Permutation.
    + pose proof (QueryFacts.sort_desc_descending c m) as S.
      split; [exact S|]. apply SqlFacts.window_Sorted; exact S.
  - exists (Sql.sort (col_asc c) m). split; [|split; [reflexivity|]].
    + apply SqlFacts.sort_Permutation.
    + pose proof (QueryFacts.sort_asc_ascending c m) as S.
      split; [exact S|]. apply SqlFacts.window_Sorted; exact S.
Qed.

Lemma sort_order_direction_witness :
  exists sorted,
    Permutation sorted (matching [nike; nixon] None None None None) /\
    get_all no_attrs [nike; nixon] 0 10 (Some "price") (Some "DeSc")
            None None None None
    = Py.Ok (window 0 10 sorted) /\
    if is_desc "DeSc"
    then descending Col_price sorted /\
         descending Col_price (window 0 10 sorted)
    else ascending Col_price sorted /\ ascending Col_price (window 0 10 sorted).
Proof.
  apply (sort_order_direction no_attrs [nike; nixon] 0 10 "price" "DeSc"
           Col_price None None None None).
  reflexivity.
Defined.

(** The two directions on a store of two rows: by price, [nixon] at 80
    comes before [nike] at 100 going up, and after it going down. *)
Lemma sort_by_price_example :
  get_all no_attrs [nike; nixon] 0 10 (Some "price") (Some "asc")
          None None None None = Py.Ok [nixon; nike] /\
  get_all no_attrs [nike; nixon] 0 10 (Some "price") (Some "DeSc")
          None None None None = Py.Ok [nike; nixon] /\
  get_all no_attrs [nike; nixon] 0 10 (Some "brand") (Some "up")
          None None None None = Py.Ok [nike; nixon].
Proof. repeat split; reflexivity. Qed.

(** C10. In every list call of the sneaker and of the vape repository, an
    empty string for [filter_brand], or for [search], gives the very result
    of an absent one: no brand condition and no search condition is
    applied. *)
Theorem empty_string_is_unset :
  (forall (Base_getattr : string -> Py.obj column) (db : list Sneaker)
          (skip limit : Z) (sort_by sort_order filter_brand : option string)
          (filter_price_min filter_price_max : option Z)
          (search : option string),
      get_all Base_getattr db skip limit sort_by sort_order (Some "")
              filter_price_min filter_price_max search
      = get_all Base_getattr db skip limit sort_by sort_order None
                filter_price_min filter_price_max search /\
      get_all Base_getattr db skip limit sort_by sort_order filter_brand
              filter_price_min filter_price_max (Some "")
      = get_all Base_getattr db skip limit sort_by sort_order filter_brand
                filter_price_min filter_price_max None) /\
  (forall (float : Type) (float_bool : float -> bool)
          (float_leb : float -> float -> bool)
          (Base_getattr : string -> Py.obj VapeApp.column)
          (db : list (VapeApp.Vape float))
          (skip limit : Z) (sort_by sort_order filter_brand : option string)
          (filter_price_min filter_price_max : option float)
          (search : option string),
      VapeApp.get_all float float_bool float_leb Base_getattr db skip limit
                      sort_by sort_order (Some "")
                      filter_price_min filter_price_max search
      = VapeApp.get_all float float_bool float_leb Base_getattr db skip limit
                        sort_by sort_order None
                        filter_price_min filter_price_max search /\
      VapeApp.get_all float float_bool float_leb Base_getattr db skip limit
                      sort_by sort_order filter_brand
                      filter_price_min filter_price_max (Some "")
      = VapeApp.get_all float float_bool float_leb Base_getattr db skip limit
                        sort_by sort_order filter_brand
                        filter_price_min filter_price_max None).
Proof. split; intros; split; reflexivity. Qed.

(* ================================================================== *)
(** ** The properties of the search *)





(* ================================================================== *)
(** ** Facts about tables with an integer key *)

Module KeyFacts.

Section Keyed.
Context {R : Type}.
Variable key : R -> Z.

Local Abbreviation replace := (Keyed.replace key).
Local Abbreviation remove := (Keyed.remove key).
Local Abbreviation max_key := (Keyed.max_key key).

Lemma first_by_key (db : list R) (i : Z) :
  Sql.first db (Sql.filter Sql.query (fun r => Sql.eq_int (Some (key r)) i))
  = find (fun r => key r =? i) db.
Proof.
  rewrite SqlFacts.first_filter_find.
  induction db as [|x db IH]; [reflexivity|].
  cbn [find]. rewrite IH. cbn. destruct (key x =? i); reflexivity.
Qed.

Lemma find_key_some (db : list R) (i : Z) (r : R) :
  find (fun r => key r =? i) db = Some r -> key r = i /\ In r db.
Proof.
  intros H. apply find_some in H. destruct H as [Hin E].
  apply Z.eqb_eq in E. auto.
Qed.

Lemma find_key_none (db : list R) (i : Z) :
  find (fun r => key r =? i) db = None <-> ~ In i (map key db).
Proof.
  induction db as [|x db IH]; simpl; [tauto|].
  destruct (key x =? i) eqn:E.
  - apply Z.eqb_eq in E. split; [discriminate|]. tauto.
  - apply Z.eqb_neq in E. rewrite IH. tauto.
Qed.

Lemma find_key_app_new (db : list R) (obj : R) :
  ~ In (key obj) (map key db) ->
  find (fun r => key r =? key obj) (db ++ [obj]) = Some obj.
Proof.
  induction db as [|x db IH]; simpl; intros H.
  - rewrite Z.eqb_refl; reflexivity.
  - destruct (key x =? key obj) eqn:E.
    + apply Z.eqb_eq in E. tauto.
    + apply IH. tauto.
Qed.

Lemma find_key_app_old (db : list R) (obj : R) (j : Z) :
  j <> key obj ->
  find (fun r => key r =? j) (db ++ [obj]) = find (fun r => key r =? j) db.
Proof.
  intros N. induction db as [|x db IH]; simpl.
  - destruct (key obj =? j) eqn:E; [|reflexivity].
    apply Z.eqb_eq in E. congruence.
  - rewrite IH. reflexivity.
Qed.

Lemma find_replace_same (db : list R) (r obj : R) :
  find (fun x => key x =? key obj) db = Some r ->
  find (fun x => key x =? key obj) (replace db obj) = Some obj.
Proof.
  unfold Keyed.replace. induction db as [|x db IH]; simpl; [discriminate|].
  destruct (key x =? key obj) eqn:E.
  - intros _. rewrite Z.eqb_refl. reflexivity.
  - rewrite E. exact IH.
Qed.

Lemma find_replace_other (db : list R) (obj : R) (j : Z) :
  j <> key obj ->
  find (fun x => key x =? j) (replace db obj)
  = find (fun x => key x =? j) db.
Proof.
  intros N. unfold Keyed.replace.
  induction db as [|x db IH]; simpl; [reflexivity|].
  destruct (key x =? key obj) eqn:E.
  - apply Z.eqb_eq in E.
    destruct (key obj =? j) eqn:F; [apply Z.eqb_eq in F; congruence|].
    destruct (key x =? j) eqn:G; [apply Z.eqb_eq in G; congruence|].
    exact IH.
  - destruct (key x =? j); [reflexivity|exact IH].
Qed.

Lemma replace_replace (db : list R) (a b : R) :
  key a = key b -> replace (replace db a) b = replace db b.
Proof.
  intros E. unfold Keyed.replace. rewrite map_map. apply map_ext.
  intros r. rewrite E. destruct (key r =? key b) eqn:F.
  - rewrite E, Z.eqb_refl. reflexivity.
  - rewrite F. reflexivity.
Qed.

Lemma replace_keys (db : list R) (obj : R) :
  map key (replace db obj) = map key db.
Proof.
  unfold Keyed.replace. rewrite map_map. apply map_ext.
  intros r. destruct (key r =? key obj) eqn:E; [|reflexivity].
  apply Z.eqb_eq in E. congruence.
Qed.

Lemma find_remove_same (db : list R) (i : Z) :
  find (fun x => key x =? i) (remove db i) = None.
Proof.
  apply find_key_none. intros H. apply in_map_iff in H.
  destruct H as [r [E Hin]]. apply filter_In in Hin.
  destruct Hin as [_ N]. rewrite E, Z.eqb_refl in N. discriminate.
Qed.

Lemma find_remove_other (db : list R) (i j : Z) :
  j <> i ->
  find (fun x => key x =? j) (remove db i) = find (fun x => key x =? j) db.
Proof.
  intros N. unfold Keyed.remove.
  induction db as [|x db IH]; simpl; [reflexivity|].
  destruct (key x =? i) eqn:E; simpl.
  - apply Z.eqb_eq in E.
    destruct (key x =? j) eqn:G; [apply Z.eqb_eq in G; congruence|].
    exact IH.
  - rewrite IH. reflexivity.
Qed.

Lemma remove_rows (db : list R) (i : Z) (r : R) :
  In r (remove db i) <-> In r db /\ key r <> i.
Proof.
  unfold Keyed.remove. rewrite filter_In.
  destruct (key r =? i) eqn:E; simpl.
  - apply Z.eqb_eq in E. intuition congruence.
  - apply Z.eqb_neq in E. intuition congruence.
Qed.

Lemma max_key_bound (db : list R) (r : R) :
  In r db -> exists m, max_key db = Some m /\ key r <= m.
Proof.
  induction db as [|x db IH]; simpl; [tauto|].
  intros [E|Hin].
  - subst x. destruct (max_key db) as [m|]; eexists; split;
      try reflexivity; lia.
  - destruct (IH Hin) as [m [E Hle]]. rewrite E.
    eexists; split; [reflexivity|lia].
Qed.

Lemma next_key_fresh (db : list R) :
  ~ In (match max_key db with None => 1 | Some m => m + 1 end) (map key db).
Proof.
  intros H. apply in_map_iff in H. destruct H as [r [E Hin]].
  destruct (max_key_bound db r Hin) as [m [M Hle]].
  rewrite M in E. lia.
Qed.

End Keyed.

End KeyFacts.

(* ================================================================== *)
(** ** More on the sneaker repository: how the writes compose *)

Module WriteFacts.
Import StoreSpec.

Lemma update_commit_replace (db : list Sneaker) (obj : Sneaker) :
  update_commit db obj = Keyed.replace id db obj.
Proof. reflexivity. Qed.

Lemma delete_commit_remove (db : list Sneaker) (obj : Sneaker) :
  delete_commit db obj = Keyed.remove id db (id obj).
Proof. reflexivity. Qed.

(** What [delete] does, in one equation. *)
Lemma delete_eq (db : list Sneaker) (i : Z) :
  delete db i =
  if existsb (fun r => id r =? i) db
  then (Keyed.remove id db i, true) else (db, false).
Proof.
  unfold delete. rewrite SneakerFacts.get_by_id_find.
  destruct (find (fun r => id r =? i) db) as [r|] eqn:F.
  - destruct (KeyFacts.find_key_some id _ _ _ F) as [E Hin].
    rewrite delete_commit_remove, E.
    assert (existsb (fun r => id r =? i) db = true) as X.
    { apply existsb_exists. exists r. split; [exact Hin|].
      apply Z.eqb_eq; exact E. }
    rewrite X. reflexivity.
  - assert (existsb (fun r => id r =? i) db = false) as X.
    { destruct (existsb (fun r => id r =? i) db) eqn:X; [|reflexivity].
      apply existsb_exists in X. destruct X as [r [Hin E]].
      rewrite (find_none _ _ F r Hin) in E. discriminate. }
    rewrite X. reflexivity.
Qed.

Lemma existsb_key (db : list Sneaker) (i : Z) :
  existsb (fun r => id r =? i) db = true <-> In i (map id db).
Proof.
  rewrite existsb_exists, in_map_iff. split.
  - intros [r [Hin E]]. apply Z.eqb_eq in E. eauto.
  - intros [r [E Hin]]. exists r. split; [exact Hin|].
    apply Z.eqb_eq; exact E.
Qed.

Lemma merged_merged (r : Sneaker) (d1 d2 : SneakerUpdate) :
  merged (merged r d1) d2 = merged r (override d1 d2).
Proof.
  destruct r as [i b m p], d1 as [[b1|] [m1|] [p1|]], d2 as [[b2|] [m2|] [p2|]];
    reflexivity.
Qed.

Lemma create_lookup_other (db : list Sneaker) (d : SneakerCreate) (j : Z) :
  j <> id (snd (create db d)) ->
  get_by_id (fst (create db d)) j = get_by_id db j.
Proof.
  pose proof (SneakerFacts.create_eq db d) as E. cbv zeta in E. rewrite E.
  cbn [fst snd]. intros N. rewrite !SneakerFacts.get_by_id_find.
  apply (KeyFacts.find_key_app_old id); exact N.
Qed.

Lemma create_lookup_new (db : list Sneaker) (d : SneakerCreate) :
  get_by_id (fst (create db d)) (id (snd (create db d)))
  = Some (snd (create db d)) /\
  ~ In (id (snd (create db d))) (map id db).
Proof.
  pose proof (SneakerFacts.create_eq db d) as E. cbv zeta in E. rewrite E.
  cbn [fst snd]. split.
  - apply SneakerFacts.get_by_id_app_new. apply SneakerFacts.next_rowid_fresh.
  - apply SneakerFacts.next_rowid_fresh.
Qed.

Lemma create_fields (db : list Sneaker) (d : SneakerCreate) :
  brand (snd (create db d)) = Some (create_brand d) /\
  model (snd (create db d)) = Some (create_model d) /\
  price (snd (create db d)) = Some (create_price d).
Proof.
  pose proof (SneakerFacts.create_eq db d) as E. cbv zeta in E. rewrite E.
  auto.
Qed.

End WriteFacts.

Import StoreSpec.

(** X1. After [delete] of a key, whether it was there or not, [get_by_id]
    of that key finds nothing and a second [delete] returns [False] and
    changes nothing; and [delete] returns [True] exactly when some row had
    the key. *)
Theorem delete_then_absent (db : list Sneaker) (i : Z) :
  get_by_id (fst (delete db i)) i = None /\
  delete (fst (delete db i)) i = (fst (delete db i), false) /\
  (snd (delete db i) = true <-> In i (map id db)).
Proof.
  assert (get_by_id (fst (delete db i)) i = None) as G.
  { rewrite WriteFacts.delete_eq, SneakerFacts.get_by_id_find.
    destruct (existsb (fun r => id r =? i) db) eqn:X; cbn [fst].
    - apply KeyFacts.find_remove_same.
    - apply KeyFacts.find_key_none. rewrite <- WriteFacts.existsb_key.
      rewrite X. discriminate. }
  split; [exact G|]. split.
  - unfold delete at 1. rewrite G. reflexivity.
  - rewrite WriteFacts.delete_eq, <- WriteFacts.existsb_key.
    destruct (existsb (fun r => id r =? i) db); cbn [snd];
      split; congruence.
Qed.

(** X2. [delete] of a key removes the rows of that key and no other: the
    rows left are the rows of other keys, and [get_by_id] of every other
    key finds what it found before. *)
Theorem delete_keeps_other_records (db : list Sneaker) (i : Z) :
  (forall r, In r (fst (delete db i)) <-> In r db /\ id r <> i) /\
  (forall j, j <> i -> get_by_id (fst (delete db i)) j = get_by_id db j).
Proof.
  rewrite WriteFacts.delete_eq.
  destruct (existsb (fun r => id r =? i) db) eqn:X; cbn [fst]; split.
  - intros r. apply KeyFacts.remove_rows.
  - intros j N. rewrite !SneakerFacts.get_by_id_find.
    apply KeyFacts.find_remove_other; exact N.
  - intros r. split; [|tauto]. intros Hin. split; [exact Hin|].
    intros E. assert (existsb (fun r => id r =? i) db = true) as Y.
    { apply WriteFacts.existsb_key. rewrite <- E. apply in_map; exact Hin. }
    congruence.
  - reflexivity.
Qed.

(** X3. [create] adds one row and touches no other: the table is one row
    longer, and [get_by_id] of every key but the new one finds what it
    found before. *)
Theorem create_keeps_other_records (db : list Sneaker) (d : SneakerCreate) :
  List.length (fst (create db d)) = S (List.length db) /\
  (forall j, j <> id (snd (create db d)) ->
             get_by_id (fst (create db d)) j = get_by_id db j).
Proof.
  split; [|intros j; apply WriteFacts.create_lookup_other].
  pose proof (SneakerFacts.create_eq db d) as E. cbv zeta in E. rewrite E.
  cbn [fst]. rewrite length_app. simpl. lia.
Qed.

(** X4. [create] checks for no duplicate: the same input created twice
    gives two records with the same brand, model and price under two
    different keys, and both are found afterwards. *)
Theorem create_twice_two_records (db : list Sneaker) (d : SneakerCreate) :
  id (snd (create db d)) <> id (snd (create (fst (create db d)) d)) /\
  brand (snd (create db d)) = brand (snd (create (fst (create db d)) d)) /\
  model (snd (create db d)) = model (snd (create (fst (create db d)) d)) /\
  price (snd (create db d)) = price (snd (create (fst (create db d)) d)) /\
  get_by_id (fst (create (fst (create db d)) d)) (id (snd (create db d)))
  = Some (snd (create db d)) /\
  get_by_id (fst (create (fst (create db d)) d))
            (id (snd (create (fst (create db d)) d)))
  = Some (snd (create (fst (create db d)) d)).
Proof.
  set (r1 := snd (create db d)). set (db1 := fst (create db d)).
  set (r2 := snd (create db1 d)). set (db2 := fst (create db1 d)).
  destruct (WriteFacts.create_lookup_new db d) as [G1 _].
  destruct (WriteFacts.create_lookup_new db1 d) as [G2 F2].
  destruct (WriteFacts.create_fields db d) as [B1 [M1 P1]].
  destruct (WriteFacts.create_fields db1 d) as [B2 [M2 P2]].
  fold r1 db1 in G1, B1, M1, P1. fold r2 db2 in G2, B2, M2, P2, F2.
  assert (id r1 <> id r2) as N.
  { intros E. apply F2. rewrite <- E.
    destruct (SneakerFacts.get_by_id_id _ _ _ G1) as [_ Hin].
    apply in_map; exact Hin. }
  repeat split; try congruence.
  unfold db2, r2. rewrite (WriteFacts.create_lookup_other db1 d (id r1) N).
  exact G1.
Qed.

(** X5. Two updates of one key in a row are one update: the second
    partial input laid over the first.  So an update repeated changes
    nothing more.  This holds for a key that is absent too: both sides
    return [None]. *)
Theorem update_twice_is_override (db : list Sneaker) (i : Z)
        (d1 d2 : SneakerUpdate) :
  update (fst (update db i d1)) i d2 = update db i (override d1 d2) /\
  update (fst (update db i d1)) i d1 = update db i d1.
Proof.
  assert (forall a b,
             update (fst (update db i a)) i b = update db i (override a b))
    as H.
  { intros a b. destruct (get_by_id db i) as [r|] eqn:G.
    - destruct (SneakerFacts.get_by_id_id _ _ _ G) as [E _].
      rewrite (SneakerFacts.update_eq db i a r G). cbn [fst].
      assert (get_by_id (update_commit db (merged r a)) i
              = Some (merged r a)) as G'.
      { subst i.
        apply (SneakerFacts.get_by_id_update_commit_same db r (merged r a)).
        exact G. }
      rewrite (SneakerFacts.update_eq _ i b _ G').
      rewrite (SneakerFacts.update_eq db i _ r G).
      rewrite WriteFacts.merged_merged.
      f_equal.
      apply (KeyFacts.replace_replace id db (merged r a)
               (merged r (override a b)) eq_refl).
    - unfold update. rewrite G. cbn [fst]. rewrite G. reflexivity. }
  split; [apply H|]. rewrite H. f_equal.
  destruct d1 as [[b|] [m|] [p|]]; reflexivity.
Qed.

(* ================================================================== *)
(** ** More on the list query: what a page holds *)

Module PageFacts.

Lemma holds_snoc {R : Type} (cs : list (R -> option bool))
      (c : R -> option bool) (r : R) :
  Sql.holds (cs ++ [c]) r =
  Sql.holds cs r && match c r with Some true => true | _ => false end.
Proof.
  unfold Sql.holds. rewrite forallb_app. simpl.
  rewrite andb_true_r. reflexivity.
Qed.

(** The conditions that [get_all] puts on the query select the rows that
    pass the filters. *)
Lemma holds_passes (fb : option string) (pmin pmax : option Z)
      (search : option string) (r : Sneaker) :
  Sql.holds (Sql.q_where (apply_filters Sql.query fb pmin pmax search)) r
  = passes fb pmin pmax search r.
Proof.
  unfold apply_filters, passes, Py.int_bool, matched.
  destruct fb as [[|c b]|]; cbn [Py.str_bool];
    (destruct pmin as [p|]; [destruct (p =? 0)|]; cbn [negb]);
    (destruct pmax as [q|]; [destruct (q =? 0)|]; cbn [negb]);
    (destruct search as [[|c' s]|]; cbn [Py.str_bool]);
    cbn [Sql.filter Sql.q_where Sql.query app];
    rewrite ?holds_snoc; cbn [Sql.holds forallb];
    unfold Sql.eq_text, Sql.ge_int, Sql.le_int;
    destruct (brand r) as [x|], (price r) as [y|]; cbn [option_map];
    rewrite ?andb_true_r, ?andb_false_r; cbn [andb];
    repeat match goal with
           | |- context [String.eqb ?a ?b] => destruct (String.eqb a b)
           | |- context [Z.leb ?a ?b] => destruct (Z.leb a b)
           end; cbn [andb]; rewrite ?andb_true_r, ?andb_false_r;
    reflexivity.
Qed.

Lemma matching_passes (db : list Sneaker) (fb : option string)
      (pmin pmax : option Z) (search : option string) :
  matching db fb pmin pmax search
  = List.filter (passes fb pmin pmax search) db.
Proof.
  unfold matching. apply filter_ext. intros r. apply holds_passes.
Qed.

Lemma In_window (skip limit : Z) (l : list Sneaker) (r : Sneaker) :
  In r (window skip limit l) -> In r l.
Proof.
  unfold window, Sql.apply_limit, Sql.apply_offset. intros H.
  assert (In r (skipn (Z.to_nat skip) l)) as H'.
  { destruct (limit <? 0); [exact H|].
    rewrite <- (firstn_skipn (Z.to_nat limit) (skipn (Z.to_nat skip) l)).
    apply in_or_app; left; exact H. }
  rewrite <- (firstn_skipn (Z.to_nat skip) l).
  apply in_or_app; right; exact H'.
Qed.

Lemma window_length (skip limit : Z) (l : list Sneaker) :
  (List.length (window skip limit l) <= List.length l)%nat /\
  (0 <= limit -> Z.of_nat (List.length (window skip limit l)) <= limit).
Proof.
  unfold window, Sql.apply_limit, Sql.apply_offset. split.
  - destruct (limit <? 0); rewrite ?length_firstn, length_skipn; lia.
  - intros H. destruct (Z.ltb_spec limit 0) as [N|_]; [lia|].
    rewrite length_firstn. lia.
Qed.

Lemma window_all (skip limit : Z) (l : list Sneaker) :
  skip <= 0 -> limit < 0 \/ Z.of_nat (List.length l) <= limit ->
  window skip limit l = l.
Proof.
  intros S L. unfold window, Sql.apply_limit, Sql.apply_offset.
  replace (Z.to_nat skip) with 0%nat by lia. cbn [skipn].
  destruct (Z.ltb_spec limit 0) as [N|N]; [reflexivity|].
  apply firstn_all2. lia.
Qed.

(** Two pages that follow each other make the page of both. *)
Lemma window_tile (skip a b : Z) (l : list Sneaker) :
  0 <= skip -> 0 <= a -> 0 <= b ->
  (window skip a l ++ window (skip + a) b l)%list = window skip (a + b) l.
Proof.
  intros S A B. unfold window, Sql.apply_limit, Sql.apply_offset.
  destruct (Z.ltb_spec a 0); [lia|]. destruct (Z.ltb_spec b 0); [lia|].
  destruct (Z.ltb_spec (a + b) 0); [lia|].
  rewrite !Z2Nat.inj_add by lia.
  generalize (Z.to_nat skip) as s, (Z.to_nat a) as n, (Z.to_nat b) as m.
  clear. intros s n m.
  rewrite Nat.add_comm, <- skipn_skipn.
  generalize (skipn s l) as k. clear. intros k.
  revert k; induction n as [|n IH]; intros k; [reflexivity|].
  destruct k as [|x k]; simpl.
  - rewrite firstn_nil. reflexivity.
  - rewrite IH. reflexivity.
Qed.

Section WithBase.
Variable Base_getattr : string -> Py.obj column.

(** When the sorting step goes through, the call returns the window of
    some rearrangement of the rows that pass the filters. *)
Lemma get_all_page (db : list Sneaker) (sort_by sort_order fb : option string)
      (pmin pmax : option Z) (search : option string) :
  sort_accepted Base_getattr sort_by sort_order = true ->
  exists sorted,
    Permutation sorted (List.filter (passes fb pmin pmax search) db) /\
    forall skip limit,
      get_all Base_getattr db skip limit sort_by sort_order fb pmin pmax
              search
      = Py.Ok (window skip limit sorted).
Proof.
  unfold sort_accepted. intros A.
  destruct (apply_sort Base_getattr Sql.query sort_by sort_order)
    as [q0|e] eqn:E; [|discriminate].
  exists (Sql.apply_order (Sql.q_order q0)
            (matching db fb pmin pmax search)).
  split.
  - rewrite matching_passes. destruct (Sql.q_order q0); simpl;
      [apply SqlFacts.sort_Permutation|reflexivity].
  - intros skip limit. rewrite QueryFacts.get_all_spec, E. reflexivity.
Qed.

End WithBase.

End PageFacts.

(** X6. When the sorting step goes through, the list call returns a list
    whose every row is a row of the store that passes all the filters
    given: the brand is the given one, the price is within the non-zero
    bounds, the search matches; a row with a NULL brand or price passes no
    test on it.  The list is no longer than the store and, for a limit
    that is not negative, no longer than the limit. *)
Theorem page_rows_pass_filters
        (Base_getattr : string -> Py.obj column) (db : list Sneaker)
        (skip limit : Z) (sort_by sort_order filter_brand : option string)
        (filter_price_min filter_price_max : option Z)
        (search : option string) :
  sort_accepted Base_getattr sort_by sort_order = true ->
  exists l,
    get_all Base_getattr db skip limit sort_by sort_order filter_brand
            filter_price_min filter_price_max search = Py.Ok l /\
    (forall r, In r l ->
               In r db /\
               passes filter_brand filter_price_min filter_price_max search r
               = true) /\
    (List.length l <= List.length db)%nat /\
    (0 <= limit -> Z.of_nat (List.length l) <= limit).
Proof.
  intros A.
  destruct (PageFacts.get_all_page Base_getattr db sort_by sort_order
              filter_brand filter_price_min filter_price_max search A)
    as [sorted [P G]].
  exists (window skip limit sorted). split; [apply G|].
  destruct (PageFacts.window_length skip limit sorted) as [L1 L2].
  repeat split.
  - apply PageFacts.In_window in H.
    apply (Permutation_in _ P) in H. apply filter_In in H. tauto.
  - apply PageFacts.In_window in H.
    apply (Permutation_in _ P) in H. apply filter_In in H. tauto.
  - apply Permutation_length in P. rewrite P in L1.
    pose proof (filter_length_le
                  (passes filter_brand filter_price_min filter_price_max
                          search) db). lia.
  - exact L2.
Qed.

Lemma page_rows_pass_filters_witness :
  exists l,
    get_all no_attrs [nike; nixon] 0 1 (Some "price") (Some "asc")
            (Some "Puma") (Some 50) None None = Py.Ok l /\
    (forall r, In r l ->
               In r [nike; nixon] /\
               passes (Some "Puma") (Some 50) None None r = true) /\
    (List.length l <= List.length [nike; nixon])%nat /\
    (0 <= 1 -> Z.of_nat (List.length l) <= 1).
Proof.
  apply (page_rows_pass_filters no_attrs [nike; nixon] 0 1 (Some "price")
           (Some "asc") (Some "Puma") (Some 50) None None).
  reflexivity.
Defined.

(** X7. When the sorting step goes through, [skip] is not positive and
    [limit] is negative or at least the size of the store, the list call
    returns every row that passes the filters, each as often as the store
    holds it: nothing is left out and nothing is added. *)
Theorem full_window_lists_all_passing
        (Base_getattr : string -> Py.obj column) (db : list Sneaker)
        (skip limit : Z) (sort_by sort_order filter_brand : option string)
        (filter_price_min filter_price_max : option Z)
        (search : option string) :
  sort_accepted Base_getattr sort_by sort_order = true ->
  skip <= 0 ->
  limit < 0 \/ Z.of_nat (List.length db) <= limit ->
  exists l,
    get_all Base_getattr db skip limit sort_by sort_order filter_brand
            filter_price_min filter_price_max search = Py.Ok l /\
    Permutation l
      (List.filter
         (passes filter_brand filter_price_min filter_price_max search) db).
Proof.
  intros A S L.
  destruct (PageFacts.get_all_page Base_getattr db sort_by sort_order
              filter_brand filter_price_min filter_price_max search A)
    as [sorted [P G]].
  exists sorted. split; [|exact P].
  rewrite G. f_equal. apply PageFacts.window_all; [exact S|].
  destruct L as [L|L]; [left; exact L|right].
  rewrite (Permutation_length P).
  pose proof (filter_length_le
                (passes filter_brand filter_price_min filter_price_max
                        search) db). lia.
Qed.

Lemma full_window_lists_all_passing_witness :
  exists l,
    get_all no_attrs [nike; nixon] 0 2 (Some "brand") (Some "desc")
            None None (Some 100) None = Py.Ok l /\
    Permutation l (List.filter (passes None None (Some 100) None)
                               [nike; nixon]).
Proof.
  apply (full_window_lists_all_passing no_attrs [nike; nixon] 0 2
           (Some "brand") (Some "desc") None None (Some 100) None).
  - reflexivity.
  - lia.
  - right. simpl. lia.
Defined.

(** X8. Pages tile the result.  For a [skip] and two limits that are not
    negative, the page of [a] rows from [skip] followed by the page of [b]
    rows from [skip + a] is the page of [a + b] rows from [skip]: no row
    is lost or repeated between two pages. *)
Theorem pages_tile
        (Base_getattr : string -> Py.obj column) (db : list Sneaker)
        (skip a b : Z) (sort_by sort_order filter_brand : option string)
        (filter_price_min filter_price_max : option Z)
        (search : option string) :
  sort_accepted Base_getattr sort_by sort_order = true ->
  0 <= skip -> 0 <= a -> 0 <= b ->
  exists l1 l2,
    get_all Base_getattr db skip a sort_by sort_order filter_brand
            filter_price_min filter_price_max search = Py.Ok l1 /\
    get_all Base_getattr db (skip + a) b sort_by sort_order filter_brand
            filter_price_min filter_price_max search = Py.Ok l2 /\
    get_all Base_getattr db skip (a + b) sort_by sort_order filter_brand
            filter_price_min filter_price_max search
    = Py.Ok (l1 ++ l2)%list.
Proof.
  intros A S Ha Hb.
  destruct (PageFacts.get_all_page Base_getattr db sort_by sort_order
              filter_brand filter_price_min filter_price_max search A)
    as [sorted [_ G]].
  exists (window skip a sorted), (window (skip + a) b sorted).
  rewrite !G. repeat split.
  rewrite PageFacts.window_tile by assumption. reflexivity.
Qed.

Lemma pages_tile_witness :
  exists l1 l2,
    get_all no_attrs [nike; nixon] 0 1 (Some "price") (Some "asc")
            None None None None = Py.Ok l1 /\
    get_all no_attrs [nike; nixon] (0 + 1) 1 (Some "price") (Some "asc")
            None None None None = Py.Ok l2 /\
    get_all no_attrs [nike; nixon] 0 (1 + 1) (Some "price") (Some "asc")
            None None None None = Py.Ok (l1 ++ l2)%list.
Proof.
  apply (pages_tile no_attrs [nike; nixon] 0 1 1 (Some "price")
           (Some "asc") None None None None); [reflexivity|lia|lia|lia].
Defined.

(** X9. [sort_order] is declared optional, but when [sort_by] names a
    declared field a [sort_order] of [None] makes the list call raise
    [AttributeError]: [None] has no [lower].  Without [sort_by] the same
    [None] is never looked at. *)
Theorem missing_sort_order_raises
        (Base_getattr : string -> Py.obj column) (db : list Sneaker)
        (skip limit : Z) (name : string) (c : column)
        (filter_brand : option string)
        (filter_price_min filter_price_max : option Z)
        (search : option string) :
  declared_field name = Some c ->
  get_all Base_getattr db skip limit (Some name) None filter_brand
          filter_price_min filter_price_max search
  = Py.Raise Py.AttributeError /\
  get_all Base_getattr db skip limit None None filter_brand
          filter_price_min filter_price_max search
  = get_all Base_getattr db skip limit None (Some "asc") filter_brand
            filter_price_min filter_price_max search.
Proof.
  intros D.
  destruct (QueryFacts.declared_field_getattr Base_getattr name c D) as [T G].
  split; [|reflexivity].
  unfold get_all, apply_sort. rewrite T, G. reflexivity.
Qed.

Lemma missing_sort_order_raises_witness :
  get_all no_attrs [nike; nixon] 0 10 (Some "price") None None None None None
  = Py.Raise Py.AttributeError /\
  get_all no_attrs [nike; nixon] 0 10 None None None None None None
  = get_all no_attrs [nike; nixon] 0 10 None (Some "asc") None None None None.
Proof.
  apply (missing_sort_order_raises no_attrs [nike; nixon] 0 10 "price"
           Col_price None None None None).
  reflexivity.
Defined.

(** X10. Price bounds that exclude each other, a non-zero minimum above a
    non-zero maximum, give the empty list whenever the sorting step goes
    through, whatever the store holds. *)
Theorem crossed_price_bounds_list_nothing
        (Base_getattr : string -> Py.obj column) (db : list Sneaker)
        (skip limit : Z) (sort_by sort_order filter_brand : option string)
        (pmin pmax : Z) (search : option string) :
  sort_accepted Base_getattr sort_by sort_order = true ->
  pmin <> 0 -> pmax <> 0 -> pmax < pmin ->
  get_all Base_getattr db skip limit sort_by sort_order filter_brand
          (Some pmin) (Some pmax) search = Py.Ok [].
Proof.
  intros A Nmin Nmax Lt.
  assert (List.filter (passes filter_brand (Some pmin) (Some pmax) search) db
          = []) as E.
  { induction db as [|r db IH]; [reflexivity|]. simpl. rewrite IH.
    assert (passes filter_brand (Some pmin) (Some pmax) search r = false)
      as F; [|rewrite F; reflexivity].
    destruct (passes filter_brand (Some pmin) (Some pmax) search r) eqn:F;
      [|reflexivity].
    exfalso. unfold passes in F.
    apply andb_prop in F. destruct F as [F _].
    apply andb_prop in F. destruct F as [F Fmax].
    apply andb_prop in F. destruct F as [_ Fmin].
    apply Z.eqb_neq in Nmin, Nmax. rewrite Nmin in Fmin. rewrite Nmax in Fmax.
    destruct (price r) as [x|]; [|discriminate].
    apply Z.leb_le in Fmin, Fmax. lia. }
  destruct (PageFacts.get_all_page Base_getattr db sort_by sort_order
              filter_brand (Some pmin) (Some pmax) search A)
    as [sorted [P G]].
  rewrite E in P. apply Permutation_sym, Permutation_nil in P. subst sorted.
  rewrite G. f_equal. apply QueryFacts.window_nil.
Qed.

Lemma crossed_price_bounds_list_nothing_witness :
  get_all no_attrs [nike; nixon] 0 10 None (Some "asc") None
          (Some 90) (Some 85) None = Py.Ok [].
Proof.
  apply (crossed_price_bounds_list_nothing no_attrs [nike; nixon] 0 10 None
           (Some "asc") None 90 85 None); [reflexivity|lia|lia|lia].
Defined.

(* ================================================================== *)
(** ** Facts about the controller *)

Module ApiFacts.
Import SneakerApi.

Lemma from_orm_complete (r : Sneaker) :
  complete r = true ->
  exists resp, from_orm r = Return resp /\ row_of resp = r.
Proof.
  unfold complete, from_orm.
  destruct r as [i [b|] [m|] [p|]]; simpl; try discriminate.
  intros _. eexists; split; reflexivity.
Qed.

Lemma from_orm_incomplete (r : Sneaker) :
  complete r = false -> from_orm r = Throw ValidationError.
Proof.
  unfold complete, from_orm.
  destruct (brand r), (model r), (price r); try discriminate; reflexivity.
Qed.

Lemma from_orm_all_complete (l : list Sneaker) :
  forallb complete l = true ->
  exists resps, from_orm_all l = Return resps /\ map row_of resps = l.
Proof.
  induction l as [|r l IH]; simpl; intros H.
  - exists []. auto.
  - apply andb_prop in H. destruct H as [C H].
    destruct (from_orm_complete r C) as [resp [E F]].
    destruct (IH H) as [resps [E' F']].
    rewrite E, E'. exists (resp :: resps). simpl. rewrite F, F'. auto.
Qed.

Lemma merged_complete (r : Sneaker) (d : SneakerUpdate) :
  complete r = true -> sets_null d = false -> complete (merged r d) = true.
Proof.
  unfold complete, sets_null, merged.
  destruct r as [i [b|] [m|] [p|]]; simpl; try discriminate.
  destruct d as [[[b'|]|] [[m'|]|] [[p'|]|]]; simpl;
    try discriminate; reflexivity.
Qed.

Lemma merged_incomplete (r : Sneaker) (d : SneakerUpdate) :
  sets_null d = true -> complete (merged r d) = false.
Proof.
  unfold complete, sets_null, merged.
  destruct r as [i b m p].
  destruct d as [[[b'|]|] [[m'|]|] [[p'|]|]]; simpl;
    try discriminate; intros _;
    destruct b, m, p; reflexivity.
Qed.

(** A history whose updates supply no [null] leaves no NULL in the
    table. *)
Lemma step_complete (db : list Sneaker) (op : operation) :
  forallb complete db = true -> null_free op = true ->
  forallb complete (step db op) = true.
Proof.
  intros C N. destruct op as [d|i d|i]; cbv [step].
  - pose proof (SneakerFacts.create_eq db d) as E. cbv zeta in E.
    rewrite E. cbn [fst]. rewrite forallb_app, C. reflexivity.
  - destruct (get_by_id db i) as [r|] eqn:G.
    + rewrite (SneakerFacts.update_eq db i d r G). cbn [fst].
      destruct (SneakerFacts.get_by_id_id _ _ _ G) as [_ Hin].
      assert (complete r = true) as Cr.
      { rewrite forallb_forall in C. apply C; exact Hin. }
      simpl in N. apply negb_true_iff in N.
      pose proof (merged_complete r d Cr N) as Cm.
      unfold update_commit. rewrite forallb_forall. intros x Hx.
      apply in_map_iff in Hx. destruct Hx as [y [E Hy]].
      destruct (id y =? id (merged r d)); subst x; [exact Cm|].
      rewrite forallb_forall in C. apply C; exact Hy.
    + unfold update. rewrite G. exact C.
  - unfold delete. destruct (get_by_id db i); cbn [fst]; [|exact C].
    unfold delete_commit. rewrite forallb_forall. intros x Hx.
    apply filter_In in Hx. rewrite forallb_forall in C. apply C; tauto.
Qed.

Lemma run_complete (ops : list operation) :
  forallb null_free ops = true -> forallb complete (run ops) = true.
Proof.
  induction ops as [|op ops IH] using rev_ind; intros H; [reflexivity|].
  rewrite forallb_app in H. apply andb_prop in H. destruct H as [H N].
  simpl in N. rewrite andb_true_r in N.
  rewrite SneakerFacts.run_snoc. apply step_complete; auto.
Qed.

Section WithBase.
Variable Base_getattr : string -> Py.obj column.

(** Every row that the list call returns is a row of the store. *)
Lemma get_all_rows (db : list Sneaker) (skip limit : Z)
      (sort_by sort_order fb : option string) (pmin pmax : option Z)
      (search : option string) (l : list Sneaker) :
  get_all Base_getattr db skip limit sort_by sort_order fb pmin pmax search
  = Py.Ok l ->
  forall r, In r l -> In r db.
Proof.
  rewrite QueryFacts.get_all_spec.
  destruct (apply_sort Base_getattr Sql.query sort_by sort_order)
    as [q0|e]; [|discriminate].
  intros [= <-] r H. apply PageFacts.In_window in H.
  assert (In r (matching db fb pmin pmax search)) as M.
  { destruct (Sql.q_order q0) as [leb|]; simpl in H; [|exact H].
    apply (Permutation_in _ (SqlFacts.sort_Permutation leb _)); exact H. }
  unfold matching in M. apply filter_In in M. tauto.
Qed.

(** On a store without NULLs the controller's listing is the
    repository's, row for row. *)
Lemma list_sneakers_complete (db : list Sneaker) (skip limit : Z)
      (sort_by sort_order fb : option string) (pmin pmax : option Z)
      (search : option string) :
  forallb complete db = true ->
  match get_all Base_getattr db skip limit sort_by sort_order fb pmin pmax
                search with
  | Py.Raise e =>
      list_sneakers Base_getattr db skip limit sort_by sort_order fb pmin
                    pmax search = Throw (Uncaught e)
  | Py.Ok l =>
      exists resps,
        list_sneakers Base_getattr db skip limit sort_by sort_order fb pmin
                      pmax search = Return resps /\
        map row_of resps = l
  end.
Proof.
  intros C. unfold list_sneakers.
  destruct (get_all Base_getattr db skip limit sort_by sort_order fb pmin
                    pmax search) as [l|e] eqn:G; [|reflexivity].
  apply from_orm_all_complete. rewrite forallb_forall. intros r H.
  rewrite forallb_forall in C. apply C.
  apply (get_all_rows _ _ _ _ _ _ _ _ _ _ G); exact H.
Qed.

End WithBase.

End ApiFacts.

Import SneakerApi.

(** X11. The controller answers 404, "Sneaker not found", exactly for a
    key that no row has: [get_sneaker], [update_sneaker] and
    [delete_sneaker] raise that [HTTPException] if and only if the key is
    absent, and then the store is as it was. *)
Theorem not_found_iff_absent (db : list Sneaker) (i : Z) :
  (get_sneaker db i = Throw (HTTPException 404 "Sneaker not found")
   <-> ~ In i (map id db)) /\
  (forall d, snd (update_sneaker db i d)
             = Throw (HTTPException 404 "Sneaker not found")
             <-> ~ In i (map id db)) /\
  (snd (delete_sneaker db i) = Throw (HTTPException 404 "Sneaker not found")
   <-> ~ In i (map id db)) /\
  (~ In i (map id db) ->
   (forall d, fst (update_sneaker db i d) = db) /\
   fst (delete_sneaker db i) = db).
Proof.
  assert (forall r, from_orm r <> Throw not_found) as F.
  { intros r. unfold from_orm.
    destruct (brand r), (model r), (price r); discriminate. }
  pose proof (KeyFacts.find_key_none id db i) as K.
  rewrite <- SneakerFacts.get_by_id_find in K.
  repeat split.
  - unfold get_sneaker. destruct (get_by_id db i) as [r|] eqn:G.
    + intros H. exfalso. exact (F r H).
    + intros _. apply K; reflexivity.
  - intros H. apply K in H. unfold get_sneaker. rewrite H. reflexivity.
  - unfold update_sneaker. destruct (get_by_id db i) as [r|] eqn:G.
    + rewrite (SneakerFacts.update_eq db i d r G). cbn [snd].
      intros H. exfalso. exact (F _ H).
    + intros _. apply K; reflexivity.
  - intros H. apply K in H. unfold update_sneaker, update. rewrite H.
    reflexivity.
  - unfold delete_sneaker, delete. destruct (get_by_id db i) as [r|] eqn:G.
    + cbn. discriminate.
    + intros _. apply K; reflexivity.
  - intros H. apply K in H. unfold delete_sneaker, delete. rewrite H.
    reflexivity.
  - intros d. apply K in H. unfold update_sneaker, update. rewrite H.
    reflexivity.
  - apply K in H. unfold delete_sneaker, delete. rewrite H. reflexivity.
Qed.

(** X12. For an input whose price is an integer that the store holds,
    [create_sneaker] returns a response with the brand, model and price of
    the input under a key that no row had, and [get_sneaker] with the key
    of that response, on the store that the create left, returns the same
    response. *)
Theorem create_sneaker_then_get_sneaker (db : list Sneaker)
        (d : SneakerCreate) :
  int64 (create_price d) ->
  exists resp,
    snd (create_sneaker db d) = Return resp /\
    resp_brand resp = create_brand d /\
    resp_model resp = create_model d /\
    resp_price resp = create_price d /\
    ~ In (resp_id resp) (map id db) /\
    get_sneaker (fst (create_sneaker db d)) (resp_id resp) = Return resp.
Proof.
  intros _. unfold create_sneaker, get_sneaker.
  pose proof (SneakerFacts.create_eq db d) as E. cbv zeta in E.
  rewrite E. cbn [fst snd].
  exists (mkSneakerResponse (next_rowid db) (create_brand d)
            (create_model d) (create_price d)).
  repeat split.
  - apply SneakerFacts.next_rowid_fresh.
  - pose proof (SneakerFacts.get_by_id_app_new db
                  (mkSneaker (next_rowid db) (Some (create_brand d))
                     (Some (create_model d)) (Some (create_price d)))
                  (SneakerFacts.next_rowid_fresh db)) as H.
    cbn [id] in H. cbn [resp_id]. rewrite H. reflexivity.
Qed.

Lemma create_sneaker_then_get_sneaker_witness :
  exists resp,
    snd (create_sneaker [nike; nixon] (mkSneakerCreate "Nike" "Air" 100))
    = Return resp /\
    resp_brand resp = "Nike" /\
    resp_model resp = "Air" /\
    resp_price resp = 100 /\
    ~ In (resp_id resp) (map id [nike; nixon]) /\
    get_sneaker
      (fst (create_sneaker [nike; nixon] (mkSneakerCreate "Nike" "Air" 100)))
      (resp_id resp) = Return resp.
Proof.
  apply (create_sneaker_then_get_sneaker [nike; nixon]
           (mkSneakerCreate "Nike" "Air" 100)).
  unfold int64; simpl; lia.
Defined.

(** X13. An update that supplies a field as [null] is stored and then
    fails: for a key that is there, [update_sneaker] raises the
    [ValidationError] of the response model, yet the store holds the row
    with the NULL in it, and from then on [get_sneaker] of that key raises
    [ValidationError] too. *)
Theorem null_update_is_stored_and_fails (db : list Sneaker) (i : Z)
        (d : SneakerUpdate) (r : Sneaker) :
  get_by_id db i = Some r ->
  sets_null d = true ->
  snd (update_sneaker db i d) = Throw ValidationError /\
  get_by_id (fst (update_sneaker db i d)) i = Some (merged r d) /\
  complete (merged r d) = false /\
  get_sneaker (fst (update_sneaker db i d)) i = Throw ValidationError.
Proof.
  intros G N.
  pose proof (ApiFacts.merged_incomplete r d N) as C.
  pose proof (ApiFacts.from_orm_incomplete _ C) as F.
  destruct (SneakerFacts.get_by_id_id _ _ _ G) as [E _].
  assert (get_by_id (update_commit db (merged r d)) i = Some (merged r d))
    as G'.
  { subst i.
    apply (SneakerFacts.get_by_id_update_commit_same db r (merged r d)).
    exact G. }
  unfold update_sneaker, get_sneaker.
  rewrite (SneakerFacts.update_eq db i d r G). cbn [fst snd].
  rewrite G'. auto.
Qed.

Lemma null_update_is_stored_and_fails_witness :
  snd (update_sneaker [nike; nixon] 2
         (mkSneakerUpdate (Some None) None None)) = Throw ValidationError /\
  get_by_id (fst (update_sneaker [nike; nixon] 2
                    (mkSneakerUpdate (Some None) None None))) 2
  = Some (merged nixon (mkSneakerUpdate (Some None) None None)) /\
  complete (merged nixon (mkSneakerUpdate (Some None) None None)) = false /\
  get_sneaker (fst (update_sneaker [nike; nixon] 2
                      (mkSneakerUpdate (Some None) None None))) 2
  = Throw ValidationError.
Proof.
  apply (null_update_is_stored_and_fails [nike; nixon] 2
           (mkSneakerUpdate (Some None) None None) nixon);
    reflexivity.
Defined.

(** X14. In a store that a history without [null] inputs leads to, no row
    has a NULL field, and the controller never raises [ValidationError]:
    not [get_sneaker], whatever the key, and not [list_sneakers], whatever
    the arguments. *)
Theorem no_null_history_never_fails_validation
        (Base_getattr : string -> Py.obj column) (ops : list operation) :
  forallb null_free ops = true ->
  forallb complete (run ops) = true /\
  (forall i, get_sneaker (run ops) i <> Throw ValidationError) /\
  (forall skip limit sort_by sort_order filter_brand filter_price_min
          filter_price_max search,
      list_sneakers Base_getattr (run ops) skip limit sort_by sort_order
                    filter_brand filter_price_min filter_price_max search
      <> Throw ValidationError).
Proof.
  intros N. pose proof (ApiFacts.run_complete ops N) as C.
  split; [exact C|]. split.
  - intros i. unfold get_sneaker.
    destruct (get_by_id (run ops) i) as [r|] eqn:G; [|discriminate].
    destruct (SneakerFacts.get_by_id_id _ _ _ G) as [_ Hin].
    rewrite forallb_forall in C.
    destruct (ApiFacts.from_orm_complete r (C r Hin)) as [resp [E _]].
    rewrite E. discriminate.
  - intros skip limit sort_by sort_order fb pmin pmax search.
    pose proof (ApiFacts.list_sneakers_complete Base_getattr (run ops) skip
                  limit sort_by sort_order fb pmin pmax search C) as L.
    destruct (get_all Base_getattr (run ops) skip limit sort_by sort_order
                      fb pmin pmax search) as [l|e].
    + destruct L as [resps [E _]]. rewrite E. discriminate.
    + rewrite L. discriminate.
Qed.

Lemma no_null_history_never_fails_validation_witness :
  forallb complete
    (run [Create (mkSneakerCreate "Nike" "Air" 100);
          Update 1 (mkSneakerUpdate None None (Some (Some 120)));
          Create (mkSneakerCreate "Puma" "Nixon Runner" 80);
          Delete 1]) = true /\
  get_sneaker
    (run [Create (mkSneakerCreate "Nike" "Air" 100);
          Update 1 (mkSneakerUpdate None None (Some (Some 120)));
          Create (mkSneakerCreate "Puma" "Nixon Runner" 80);
          Delete 1]) 2 <> Throw ValidationError.
Proof.
  destruct (no_null_history_never_fails_validation no_attrs
              [Create (mkSneakerCreate "Nike" "Air" 100);
               Update 1 (mkSneakerUpdate None None (Some (Some 120)));
               Create (mkSneakerCreate "Puma" "Nixon Runner" 80);
               Delete 1] eq_refl) as [A [B _]].
  split; [exact A|apply B].
Defined.

(** X15. The route [GET /sneakers/] called with no query parameter at all
    returns, on a store without NULLs, the first ten rows of the table as
    responses, in the order of the table. *)
Theorem read_sneakers_defaults
        (Base_getattr : string -> Py.obj column) (db : list Sneaker) :
  forallb complete db = true ->
  exists resps,
    read_sneakers Base_getattr db None None None None None None None None
    = Return resps /\
    map row_of resps = firstn 10 db.
Proof.
  intros C.
  pose proof (ApiFacts.list_sneakers_complete Base_getattr db 0 10 None
                (Some "asc") None None None None C) as L.
  assert (get_all Base_getattr db 0 10 None (Some "asc") None None None None
          = Py.Ok (firstn 10 db)) as G.
  { assert (matching db None None None None = db) as M.
    { unfold matching. cbn. clear.
      induction db as [|x db IH]; simpl; congruence. }
    rewrite QueryFacts.get_all_spec. cbn [apply_sort Sql.q_order Sql.query].
    rewrite M. reflexivity. }
  rewrite G in L. exact L.
Qed.

Lemma read_sneakers_defaults_witness :
  exists resps,
    read_sneakers no_attrs [nike; nixon] None None None None None None None
                  None = Return resps /\
    map row_of resps = firstn 10 [nike; nixon].
Proof.
  apply (read_sneakers_defaults no_attrs [nike; nixon]). reflexivity.
Defined.

(** X16. Through the route, sorting on a declared field goes through
    for every [sort_order].  On a store without NULLs, with [sort_by] a
    declared field, [sort_order] left out or any string at all, and every
    integer argument one that the store holds, [GET /sneakers/] returns
    the rows that the repository lists, as responses, and they go down
    along the field for the word desc in any mix of cases and up
    otherwise.  (The route never passes [None] for [sort_order].) *)
Theorem read_sneakers_sorted_on_declared_field
        (Base_getattr : string -> Py.obj column) (db : list Sneaker)
        (skip limit : option Z) (name : string) (c : column)
        (sort_order filter_brand : option string)
        (filter_price_min filter_price_max : option Z)
        (search : option string) :
  forallb complete db = true ->
  declared_field name = Some c ->
  opt_int64 skip -> opt_int64 limit ->
  opt_int64 filter_price_min -> opt_int64 filter_price_max ->
  exists resps l,
    read_sneakers Base_getattr db skip limit (Some name) sort_order
                  filter_brand filter_price_min filter_price_max search
    = Return resps /\
    get_all Base_getattr db
            (match skip with Some n => n | None => 0 end)
            (match limit with Some n => n | None => 10 end)
            (Some name)
            (Some (match sort_order with Some o => o | None => "asc" end))
            filter_brand filter_price_min filter_price_max search
    = Py.Ok l /\
    map row_of resps = l /\
    if is_desc (match sort_order with Some o => o | None => "asc" end)
    then descending c l else ascending c l.
Proof.
  intros C D _ _ _ _. unfold read_sneakers.
  set (s := match skip with Some n => n | None => 0 end).
  set (n := match limit with Some n => n | None => 10 end).
  set (o := match sort_order with Some o => o | None => "asc" end).
  pose proof (ApiFacts.list_sneakers_complete Base_getattr db s n (Some name)
                (Some o) filter_brand filter_price_min filter_price_max
                search C) as L.
  destruct (QueryFacts.declared_field_getattr Base_getattr name c D) as [T G].
  assert (exists l,
             get_all Base_getattr db s n (Some name) (Some o) filter_brand
                     filter_price_min filter_price_max search = Py.Ok l /\
             if is_desc o then descending c l else ascending c l) as [l [E S]].
  { rewrite QueryFacts.get_all_spec. unfold apply_sort.
    rewrite T, G, QueryFacts.lower_desc.
    destruct (is_desc o); simpl; eexists; (split; [reflexivity|]);
      apply SqlFacts.window_Sorted.
    - apply QueryFacts.sort_desc_descending.
    - apply QueryFacts.sort_asc_ascending. }
  rewrite E in L. destruct L as [resps [R M]].
  exists resps, l. auto.
Qed.

Lemma read_sneakers_sorted_on_declared_field_witness :
  exists resps l,
    read_sneakers no_attrs [nike; nixon] None None (Some "price")
                  (Some "DESC") None (Some 50) None None = Return resps /\
    get_all no_attrs [nike; nixon] 0 10 (Some "price") (Some "DESC")
            None (Some 50) None None = Py.Ok l /\
    map row_of resps = l /\
    if is_desc "DESC"
    then descending Col_price l else ascending Col_price l.
Proof.
  apply (read_sneakers_sorted_on_declared_field no_attrs [nike; nixon] None
           None "price" Col_price (Some "DESC") None (Some 50) None None);
    try reflexivity; try exact I.
  unfold opt_int64, int64. simpl. lia.
Defined.

(* ================================================================== *)
(** ** Facts about the vape repository *)

Module VapeFacts.
Import VapeStore.

Section Floats.
Variable float : Type.
Variable float_is_nan : float -> bool.

Local Abbreviation Vape := (VapeApp.Vape float).
Local Abbreviation vid := (VapeApp.id float).

Lemma vape_get_by_id_find (db : list Vape) (i : Z) :
  get_by_id float db i = find (fun r => vid r =? i) db.
Proof. apply (KeyFacts.first_by_key vid). Qed.

Lemma vape_setattr_loop (r : Vape) (d : VapeUpdate float) :
  fold_left (setattr float)
            (map (bound float float_is_nan) (dict_exclude_unset float d)) r
  = merged float float_is_nan r d.
Proof.
  destruct r as [i b m p w], d as [[ub|] [um|] [[up|]|] [[uw|]|]];
    unfold merged, nan_as_null, dict_exclude_unset; cbn;
    unfold bind_real;
    repeat match goal with
           | |- context [float_is_nan ?x] => destruct (float_is_nan x)
           end; reflexivity.
Qed.

Lemma vape_create_eq (db : list Vape) (d : VapeCreate float) :
  create float float_is_nan db d =
  ((db ++ [VapeApp.mkVape float (next_rowid float db)
             (Some (create_brand float d)) (Some (create_model float d))
             (nan_as_null float float_is_nan (Some (create_price float d)))
             (nan_as_null float float_is_nan
                (Some (create_power_level float d)))])%list,
   VapeApp.mkVape float (next_rowid float db)
     (Some (create_brand float d)) (Some (create_model float d))
     (nan_as_null float float_is_nan (Some (create_price float d)))
     (nan_as_null float float_is_nan (Some (create_power_level float d)))).
Proof.
  unfold create, add_commit, refresh, to_row, bind_real, nan_as_null.
  cbn [VapeApp.id VapeApp.brand VapeApp.model VapeApp.price
       VapeApp.power_level].
  set (row := VapeApp.mkVape float (next_rowid float db)
                (Some (create_brand float d)) (Some (create_model float d))
                (if float_is_nan (create_price float d)
                 then None else Some (create_price float d))
                (if float_is_nan (create_power_level float d)
                 then None else Some (create_power_level float d))).
  rewrite vape_get_by_id_find.
  assert (find (fun r => vid r =? next_rowid float db) (db ++ [row])
          = Some row) as F.
  { apply (KeyFacts.find_key_app_new vid db row).
    apply (KeyFacts.next_key_fresh vid). }
  rewrite F. reflexivity.
Qed.

Lemma vape_update_eq (db : list Vape) (i : Z) (d : VapeUpdate float)
      (r : Vape) :
  get_by_id float db i = Some r ->
  update float float_is_nan db i d
  = (update_commit float db (merged float float_is_nan r d),
     Some (merged float float_is_nan r d)).
Proof.
  intros H. unfold update. rewrite H, vape_setattr_loop.
  rewrite vape_get_by_id_find in H.
  destruct (KeyFacts.find_key_some vid _ _ _ H) as [E _].
  assert (vid (fold_left (setattr float) (dict_exclude_unset float d) r)
          = vid (merged float float_is_nan r d)) as K.
  { destruct r as [k b m p w], d as [[ub|] [um|] [up|] [uw|]]; reflexivity. }
  unfold refresh. rewrite vape_get_by_id_find, K.
  assert (find (fun x => vid x =? vid (merged float float_is_nan r d))
               (update_commit float db (merged float float_is_nan r d))
          = Some (merged float float_is_nan r d)) as F.
  { apply (KeyFacts.find_replace_same vid db r
             (merged float float_is_nan r d)).
    simpl. rewrite E. exact H. }
  rewrite F. reflexivity.
Qed.

Lemma vape_delete_eq (db : list Vape) (i : Z) :
  delete float db i =
  match find (fun r => vid r =? i) db with
  | Some _ => (Keyed.remove vid db i, true)
  | None => (db, false)
  end.
Proof.
  unfold delete. rewrite vape_get_by_id_find.
  destruct (find (fun r => vid r =? i) db) as [r|] eqn:F; [|reflexivity].
  destruct (KeyFacts.find_key_some vid _ _ _ F) as [E _].
  unfold delete_commit. rewrite E. reflexivity.
Qed.

End Floats.

End VapeFacts.

(** X17. In the vape repository, [get_by_id] with the key that [create]
    assigned, called right after the create, returns the created record,
    under a key that no earlier row had.  Its brand and model are those of
    the input; its price and power level are those of the input too,
    unless the input gave a NaN: that field comes back as NULL. *)
Theorem vape_create_then_get_by_id (float : Type)
        (float_is_nan : float -> bool)
        (db : list (VapeApp.Vape float)) (d : VapeStore.VapeCreate float) :
  VapeStore.get_by_id float
    (fst (VapeStore.create float float_is_nan db d))
    (VapeApp.id float (snd (VapeStore.create float float_is_nan db d)))
  = Some (snd (VapeStore.create float float_is_nan db d)) /\
  VapeApp.brand float (snd (VapeStore.create float float_is_nan db d))
  = Some (VapeStore.create_brand float d) /\
  VapeApp.model float (snd (VapeStore.create float float_is_nan db d))
  = Some (VapeStore.create_model float d) /\
  VapeApp.price float (snd (VapeStore.create float float_is_nan db d))
  = (if float_is_nan (VapeStore.create_price float d)
     then None else Some (VapeStore.create_price float d)) /\
  VapeApp.power_level float (snd (VapeStore.create float float_is_nan db d))
  = (if float_is_nan (VapeStore.create_power_level float d)
     then None else Some (VapeStore.create_power_level float d)) /\
  ~ In (VapeApp.id float (snd (VapeStore.create float float_is_nan db d)))
       (map (VapeApp.id float) db).
Proof.
  rewrite VapeFacts.vape_create_eq. cbn [fst snd].
  repeat split.
  - rewrite VapeFacts.vape_get_by_id_find.
    apply (KeyFacts.find_key_app_new (VapeApp.id float)).
    apply (KeyFacts.next_key_fresh (VapeApp.id float)).
  - apply (KeyFacts.next_key_fresh (VapeApp.id float)).
Qed.

(** X18. In the vape repository, [update] of a key that no row has
    returns [None] and leaves the store as it was; [update] of a key that
    is there returns and stores the row with exactly the supplied fields
    replaced, the power level among them and a NaN supplied for a float
    field stored as NULL, keeps the key of every row, and leaves the rows
    of other keys as they were. *)
Theorem vape_update_applies_supplied_fields (float : Type)
        (float_is_nan : float -> bool)
        (db : list (VapeApp.Vape float)) (i : Z)
        (d : VapeStore.VapeUpdate float) :
  (VapeStore.get_by_id float db i = None ->
   VapeStore.update float float_is_nan db i d = (db, None)) /\
  (forall r,
      VapeStore.get_by_id float db i = Some r ->
      snd (VapeStore.update float float_is_nan db i d)
      = Some (VapeStore.merged float float_is_nan r d) /\
      VapeStore.get_by_id float
        (fst (VapeStore.update float float_is_nan db i d)) i
      = Some (VapeStore.merged float float_is_nan r d) /\
      map (VapeApp.id float)
          (fst (VapeStore.update float float_is_nan db i d))
      = map (VapeApp.id float) db /\
      forall j, j <> i ->
                VapeStore.get_by_id float
                  (fst (VapeStore.update float float_is_nan db i d)) j
                = VapeStore.get_by_id float db j).
Proof.
  split.
  - intros H. unfold VapeStore.update. rewrite H. reflexivity.
  - intros r H.
    rewrite (VapeFacts.vape_update_eq float float_is_nan db i d r H).
    cbn [fst snd]. rewrite !VapeFacts.vape_get_by_id_find.
    rewrite VapeFacts.vape_get_by_id_find in H.
    destruct (KeyFacts.find_key_some (VapeApp.id float) _ _ _ H) as [E _].
    repeat split.
    + subst i.
      apply (KeyFacts.find_replace_same (VapeApp.id float) db r
               (VapeStore.merged float float_is_nan r d)).
      exact H.
    + apply (KeyFacts.replace_keys (VapeApp.id float)).
    + intros j N. rewrite !VapeFacts.vape_get_by_id_find.
      apply (KeyFacts.find_replace_other (VapeApp.id float)).
      simpl. congruence.
Qed.

(** X19. In the vape repository, after [delete] of a key, [get_by_id] of
    that key finds nothing and a second [delete] returns [False] and
    changes nothing; [delete] returns [True] exactly when some row had the
    key; and [get_by_id] of every other key finds what it found before. *)
Theorem vape_delete_then_absent (float : Type)
        (db : list (VapeApp.Vape float)) (i : Z) :
  VapeStore.get_by_id float (fst (VapeStore.delete float db i)) i = None /\
  VapeStore.delete float (fst (VapeStore.delete float db i)) i
  = (fst (VapeStore.delete float db i), false) /\
  (snd (VapeStore.delete float db i) = true
   <-> In i (map (VapeApp.id float) db)) /\
  (forall j, j <> i ->
             VapeStore.get_by_id float (fst (VapeStore.delete float db i)) j
             = VapeStore.get_by_id float db j).
Proof.
  assert (VapeStore.get_by_id float (fst (VapeStore.delete float db i)) i
          = None) as G.
  { rewrite VapeFacts.vape_delete_eq, VapeFacts.vape_get_by_id_find.
    destruct (find (fun r => VapeApp.id float r =? i) db) eqn:F; cbn [fst].
    - apply KeyFacts.find_remove_same.
    - exact F. }
  split; [exact G|]. split; [|split].
  - unfold VapeStore.delete at 1. rewrite G. reflexivity.
  - rewrite VapeFacts.vape_delete_eq.
    pose proof (KeyFacts.find_key_none (VapeApp.id float) db i) as K.
    destruct (find (fun r => VapeApp.id float r =? i) db) eqn:F; cbn [snd].
    + split; [intros _|reflexivity].
      destruct (KeyFacts.find_key_some (VapeApp.id float) _ _ _ F)
        as [E Hin].
      rewrite <- E. apply in_map; exact Hin.
    + split; [discriminate|]. intros H. exfalso.
      apply (proj1 K); [reflexivity|exact H].
  - intros j N.
    rewrite VapeFacts.vape_delete_eq, !VapeFacts.vape_get_by_id_find.
    destruct (find (fun r => VapeApp.id float r =? i) db) eqn:F; cbn [fst].
    + apply KeyFacts.find_remove_other; exact N.
    + reflexivity.
Qed.

(** X21. An update through the controller can be read back.  For a key
    whose row has no NULL and a partial input that supplies no [null],
    [update_sneaker] returns the response of the row with the supplied
    fields replaced, and [get_sneaker] of that key then returns the same
    response. *)
Theorem update_sneaker_then_get_sneaker (db : list Sneaker) (i : Z)
        (d : SneakerUpdate) (r : Sneaker) :
  get_by_id db i = Some r ->
  complete r = true ->
  sets_null d = false ->
  exists resp,
    snd (update_sneaker db i d) = Return resp /\
    row_of resp = merged r d /\
    get_sneaker (fst (update_sneaker db i d)) i = Return resp.
Proof.
  intros G C N.
  destruct (ApiFacts.from_orm_complete _ (ApiFacts.merged_complete r d C N))
    as [resp [F R]].
  destruct (SneakerFacts.get_by_id_id _ _ _ G) as [E _].
  assert (get_by_id (update_commit db (merged r d)) i = Some (merged r d))
    as G'.
  { subst i.
    apply (SneakerFacts.get_by_id_update_commit_same db r (merged r d)).
    exact G. }
  exists resp. unfold update_sneaker, get_sneaker.
  rewrite (SneakerFacts.update_eq db i d r G). cbn [fst snd].
  rewrite G'. auto.
Qed.

Lemma update_sneaker_then_get_sneaker_witness :
  exists resp,
    snd (update_sneaker [nike; nixon] 1
           (mkSneakerUpdate None None (Some (Some 120)))) = Return resp /\
    row_of resp = merged nike (mkSneakerUpdate None None (Some (Some 120))) /\
    get_sneaker (fst (update_sneaker [nike; nixon] 1
                        (mkSneakerUpdate None None (Some (Some 120))))) 1
    = Return resp.
Proof.
  apply (update_sneaker_then_get_sneaker [nike; nixon] 1
           (mkSneakerUpdate None None (Some (Some 120))) nike);
    reflexivity.
Defined.
